(** * Pose pipeline (pipeline/__main__.py): extraction, transformation, load

    A shallow embedding of the ETL script: [extrair_keypoints] (E),
    [transformar_e_carregar] (T+L), [setup_database] and [main], over an
    explicit world holding the file system, the SQLite databases, the shared
    MediaPipe detector, the clock, the log and the trace of calls made to
    OpenCV.  Python integers are [Z], Python floats are binary64 floats,
    dictionaries with a fixed set of keys are records. *)

From Stdlib Require Import ZArith Floats Ascii.
From stdpp Require Import base strings list sorting gmap.

Local Open Scope Z_scope.

(** ** Python results *)

(** The exceptions raised by the steps that are modelled as able to fail.
    Steps modelled as succeeding raise nothing here, though the interpreter
    could: [open] and [os.makedirs] on a directory that cannot be written
    ([OSError]), subscripting an artifact of another shape ([KeyError],
    [TypeError]), binding an integer outside 64 bits ([OverflowError]).  The
    properties below are stated for given outcomes of the model, not as
    lists of everything a call may raise. *)
Inductive PyExc :=
  | TypeError            (* unpacking a non-iterable *)
  | ValueError           (* PoseLandmark(idx) with idx outside the enumeration *)
  | UnboundLocalError    (* reading a local that was never assigned *)
  | FileNotFoundError    (* open(path, 'r') on a missing file, os.makedirs('') *)
  | JSONDecodeError      (* json.load on text that is not a JSON document *)
  | OperationalError.    (* sqlite3.OperationalError *)

(** [except sqlite3.Error]: of the exceptions above only
    [sqlite3.OperationalError] derives from [sqlite3.Error]. *)
Definition is_sqlite3_Error (e : PyExc) : bool :=
  match e with OperationalError => true | _ => false end.

Inductive result (A : Type) :=
  | Ok (a : A)
  | Raise (e : PyExc).
Arguments Ok {A} a.
Arguments Raise {A} e.

(** ** Data carried by the pipeline *)

(** One element of [results.pose_landmarks.landmark]. *)
Module NormalizedLandmark.
Record t := mk { x : float; y : float; z : float; visibility : float }.
End NormalizedLandmark.

(** [landmark_data], the dictionary built per landmark. *)
Module LandmarkData.
Record t := mk {
  id : Z;
  nome : string;
  x : float;
  y : float;
  z : float;
  visibility : float
}.
End LandmarkData.

(** [frame_data = {'frame': frame_count, 'landmarks': [...]}]. *)
Module FrameData.
Record t := mk { frame : Z; landmarks : list LandmarkData.t }.
End FrameData.

(** A tuple of [linhas_para_db], in the column order of
    [keypoints_normalizados].  The key columns always hold values: the name
    is a [str], the frame index comes from a counter and the landmark id
    from [enumerate], so NULL never occurs in a key. *)
Module Linha.
Record t := mk {
  video_nome : string;
  frame : Z;
  landmark_id : Z;
  landmark_nome : string;
  x : float;
  y : float;
  z : float;
  visibilidade : float;
  data_processamento : string
}.

(** PRIMARY KEY (video_nome, frame, landmark_id). *)
Definition chave (l : t) : string * Z * Z :=
  (video_nome l, frame l, landmark_id l).
End Linha.

(** The row built for one landmark of one frame. *)
Definition linha_de (video_nome data_proc_str : string) (frame_id : Z)
    (landmark : LandmarkData.t) : Linha.t :=
  Linha.mk video_nome frame_id
    (LandmarkData.id landmark) (LandmarkData.nome landmark)
    (LandmarkData.x landmark) (LandmarkData.y landmark)
    (LandmarkData.z landmark) (LandmarkData.visibility landmark)
    data_proc_str.

(** ** The SQLite table *)

Module Sqlite.

(** Rows of [keypoints_normalizados] in rowid order, each as the tuple that
    was bound to the statement.  What SQLite makes of the REAL columns on the
    way in and out (a NaN is stored as NULL, -0.0 is read back as 0.0) is not
    modelled: a row stands for its key, its place in the table and the tuple
    it came from, and the properties of stored rows below are about keys,
    counts and order. *)
Abbreviation tabela := (list Linha.t).

(** What is found at a database path. *)
Inductive DbFile :=
  | Inacessivel                        (* sqlite3.connect raises *)
  | Banco (t : option tabela).         (* a database; [None]: no table yet *)

Definition chaves (t : tabela) : list (string * Z * Z) := Linha.chave <$> t.

(** One execution of [INSERT OR IGNORE INTO keypoints_normalizados ...
    VALUES (?, ..., ?)]: the new table and the number of rows changed. *)
Definition insert_or_ignore (l : Linha.t) (t : tabela) : tabela * nat :=
  if decide (Linha.chave l ∈ chaves t) then (t, 0%nat) else (t ++ [l], 1%nat).

(** [cursor.executemany(query, linhas)]: the statement runs once per tuple,
    and [cursor.rowcount] sums the changes. *)
Fixpoint executemany (linhas : list Linha.t) (t : tabela) (rowcount : nat)
  : tabela * nat :=
  match linhas with
  | [] => (t, rowcount)
  | l :: resto =>
      let '(t', n) := insert_or_ignore l t in
      executemany resto t' (rowcount + n)%nat
  end.

(** [CREATE TABLE IF NOT EXISTS keypoints_normalizados (...)]. *)
Definition create_table_if_not_exists (t : option tabela) : tabela :=
  match t with
  | None => []
  | Some linhas => linhas
  end.

(** States of the table a run can be in: created empty by
    [create_table_if_not_exists], then changed only by [executemany]. *)
Inductive alcancavel : tabela → Prop :=
  | alc_criada : alcancavel (create_table_if_not_exists None)
  | alc_carga linhas t :
      alcancavel t → alcancavel (executemany linhas t 0).1.

(** The row stored under a key. *)
Definition busca (k : string * Z * Z) (t : tabela) : option Linha.t :=
  head (filter (λ l, Linha.chave l = k) t).

End Sqlite.

(** ** Paths *)

Definition VIDEO_INPUT_DIR : string := "/app/videos_input".
Definition KEYPOINTS_OUTPUT_DIR : string := "/app/keypoints_output".
Definition DATABASE_DIR : string := "/app/database".

Definition barra : ascii := "/"%char.

Definition startswith_barra (s : string) : bool :=
  match s with
  | String c _ => bool_decide (c = barra)
  | EmptyString => false
  end.

(** [s.endswith(suf)]: some tail of [s] is [suf]. *)
Fixpoint endswith (s suf : string) : bool :=
  bool_decide (s = suf) ||
  match s with
  | EmptyString => false
  | String _ s' => endswith s' suf
  end.

(** [os.path.join(a, b)] of posixpath, for two components. *)
Definition os_path_join (a b : string) : string :=
  if startswith_barra b then b
  else if bool_decide (a = "") || endswith a "/" then a +:+ b
  else a +:+ "/" +:+ b.

Fixpoint tem_barra (s : string) : bool :=
  match s with
  | EmptyString => false
  | String c s' => bool_decide (c = barra) || tem_barra s'
  end.

(** [os.path.basename(p)]: what follows the last slash. *)
Fixpoint os_path_basename (p : string) : string :=
  match p with
  | EmptyString => EmptyString
  | String c p' =>
      if tem_barra p' then os_path_basename p'
      else if bool_decide (c = barra) then p'
      else p
  end.

(** [os.path.dirname(p)] of posixpath: [p] up to its last slash, without
    the slashes that end it unless it is made of slashes only. *)
Fixpoint ate_ultima_barra (p : string) : string :=
  match p with
  | EmptyString => EmptyString
  | String c p' =>
      if tem_barra p' then String c (ate_ultima_barra p')
      else if bool_decide (c = barra) then String c EmptyString
      else EmptyString
  end.

Fixpoint so_barras (s : string) : bool :=
  match s with
  | EmptyString => true
  | String c s' => bool_decide (c = barra) && so_barras s'
  end.

Fixpoint rstrip_barras (s : string) : string :=
  match s with
  | EmptyString => EmptyString
  | String c s' =>
      match rstrip_barras s' with
      | EmptyString => if bool_decide (c = barra) then EmptyString else String c EmptyString
      | r => String c r
      end
  end.

Definition os_path_dirname (p : string) : string :=
  let head := ate_ultima_barra p in
  if so_barras head then head else rstrip_barras head.

Definition DB_FILE : string := Eval vm_compute in os_path_join DATABASE_DIR "poses.db".

(** [glob.glob(os.path.join(dir, "*.mp4"))] over the entries of [dir]: the
    pattern does not start with a dot, so entries that do are left out; the
    others are kept when they end in ".mp4" (fnmatch is case-sensitive on
    POSIX).  The results are [dir] joined with the entry, in listing order. *)
Definition glob_casa_mp4 (nome : string) : bool :=
  negb (match nome with String "." _ => true | _ => false end)
  && endswith nome ".mp4".

Definition glob_mp4 (dir : string) (entradas : list string) : list string :=
  os_path_join dir <$> filter (λ n, glob_casa_mp4 n = true) entradas.

(** ** Log records and calls to the external collaborators *)

Inductive Nivel := INFO | WARNING | ERROR.

(** The messages of the script, one constructor per [logging] call. *)
Inductive Mensagem :=
  | Iniciando
  | ConfigurandoBanco (db_path : string)
  | BancoPronto
  | NenhumVideo (dir : string)
  | Encontrados (n : nat)
  | Extraindo (video_nome : string)
  | NaoFoiPossivelAbrir (video_path : string)
  | ExtracaoConcluida (frame_count : Z)
  | NenhumaPose (video_nome : string)
  | Processando (video_nome : string)
  | NenhumaLinha
  | Sucesso (rowcount : nat)
  | ErroSqlite (e : PyExc)
  | Falha (video_path : string) (e : PyExc)
  | Concluido.

(** Calls to OpenCV and MediaPipe, in the order they are made. *)
Inductive Chamada :=
  | CVideoCapture (video_path : string)
  | CRead (video_path : string)
  | CProcess
  | CRelease (video_path : string).

(** Content of a text file of the artifact directory: just opened for
    writing (created or truncated, nothing flushed yet), or a complete JSON
    document as [json.dump] leaves it. *)
Inductive Arquivo :=
  | ArqVazio
  | ArqJson (dados_brutos : list FrameData.t).

(** What [extrair_keypoints] returns: [None], or a pair. *)
Inductive Retorno :=
  | RetNone
  | RetTupla (video_nome json_path : option string).

(** Truth value of [None] or a [str]. *)
Definition verdadeiro (s : option string) : bool :=
  match s with
  | None | Some EmptyString => false
  | Some _ => true
  end.

Section Pipeline.

(** The external collaborators: decoded frames, the MediaPipe [Pose]
    object (which keeps tracking state between calls), the enumeration
    [mp_pose.PoseLandmark] and the formatting of clock readings. *)
Context {Image Pose : Type}.
Variable process : Pose → Image → Pose * option (list NormalizedLandmark.t).
Variable PoseLandmark_name : Z → option string.
Variable isoformat : nat → string.

Record Mundo := mkMundo {
  entradas : list string;               (* entries of VIDEO_INPUT_DIR *)
  videos : gmap string (list Image);    (* files OpenCV can open, with their frames *)
  arquivos : gmap string Arquivo;       (* text files, by path *)
  bancos : gmap string Sqlite.DbFile;   (* SQLite databases, by path *)
  pose : Pose;                          (* the module-level [pose] object *)
  relogio : nat;                        (* clock: number of readings so far *)
  log : list (Nivel * Mensagem);
  chamadas : list Chamada
}.

Definition com_arquivos (f : gmap string Arquivo → gmap string Arquivo) (w : Mundo) : Mundo :=
  mkMundo (entradas w) (videos w) (f (arquivos w)) (bancos w) (pose w)
          (relogio w) (log w) (chamadas w).
Definition com_bancos (f : gmap string Sqlite.DbFile → gmap string Sqlite.DbFile) (w : Mundo) : Mundo :=
  mkMundo (entradas w) (videos w) (arquivos w) (f (bancos w)) (pose w)
          (relogio w) (log w) (chamadas w).
Definition com_pose (p : Pose) (w : Mundo) : Mundo :=
  mkMundo (entradas w) (videos w) (arquivos w) (bancos w) p
          (relogio w) (log w) (chamadas w).
Definition com_relogio (n : nat) (w : Mundo) : Mundo :=
  mkMundo (entradas w) (videos w) (arquivos w) (bancos w) (pose w)
          n (log w) (chamadas w).
Definition com_log (l : list (Nivel * Mensagem)) (w : Mundo) : Mundo :=
  mkMundo (entradas w) (videos w) (arquivos w) (bancos w) (pose w)
          (relogio w) l (chamadas w).
Definition com_chamadas (c : list Chamada) (w : Mundo) : Mundo :=
  mkMundo (entradas w) (videos w) (arquivos w) (bancos w) (pose w)
          (relogio w) (log w) c.

(** A database path nobody wrote to yet holds no table: [sqlite3.connect]
    creates the file. *)
Definition banco_em (w : Mundo) (db_path : string) : Sqlite.DbFile :=
  default (Sqlite.Banco None) (bancos w !! db_path).

(** *** Computations: world passing, with Python exceptions *)

Definition M (A : Type) : Type := Mundo → Mundo * result A.

Definition ret {A} (a : A) : M A := λ w, (w, Ok a).
Definition raise {A} (e : PyExc) : M A := λ w, (w, Raise e).
Definition bind {A B} (c : M A) (k : A → M B) : M B :=
  λ w, match c w with
       | (w', Ok a) => k a w'
       | (w', Raise e) => (w', Raise e)
       end.

Notation "x <- c ;; k" := (bind c (λ x, k))
  (at level 100, c at next level, right associativity).
Notation "c ;;; k" := (bind c (λ _, k))
  (at level 100, right associativity).

(** [try: corpo except Exception as e: tratador(e)]; every exception of
    [PyExc] derives from [Exception]. *)
Definition try_except_Exception {A} (corpo : M A) (tratador : PyExc → M A) : M A :=
  λ w, match corpo w with
       | (w', Ok a) => (w', Ok a)
       | (w', Raise e) => tratador e w'
       end.

Definition logging (n : Nivel) (m : Mensagem) : M unit :=
  λ w, (com_log (log w ++ [(n, m)]) w, Ok tt).

Definition chamar (c : Chamada) : M unit :=
  λ w, (com_chamadas (chamadas w ++ [c]) w, Ok tt).

(** [datetime.utcnow().isoformat()]: one reading of the clock; a later
    reading is a later time. *)
Definition utcnow_isoformat : M string :=
  λ w, (com_relogio (S (relogio w)) w, Ok (isoformat (relogio w))).

(** [cv2.VideoCapture(video_path)] followed by [cap.isOpened()]: the frames
    still to be read, or [None] when the file cannot be opened. *)
Definition cv2_VideoCapture (video_path : string) : M (option (list Image)) :=
  chamar (CVideoCapture video_path) ;;;
  λ w, (w, Ok (videos w !! video_path)).

(** [pose.process(image_rgb)] and [results.pose_landmarks]. *)
Definition pose_process (image : Image) : M (option (list NormalizedLandmark.t)) :=
  chamar CProcess ;;;
  λ w, let '(p, r) := process (pose w) image in (com_pose p w, Ok r).

(** What the detector answers on the frames of a video taken in order,
    starting from the tracking state [p]: the frames "with a detection"
    are those whose answer is [Some]. *)
Fixpoint deteccoes (p : Pose) (frames : list Image)
  : list (option (list NormalizedLandmark.t)) :=
  match frames with
  | [] => []
  | image :: resto =>
      let '(p', r) := process p image in
      r :: deteccoes p' resto
  end.

(** *** setup_database *)

(** [os.makedirs(name, exist_ok=True)]: the empty name is no directory and
    raises [FileNotFoundError]; the world has no directories or permissions,
    so creating a directory of any other name is taken to succeed. *)
Definition os_makedirs (name : string) : M unit :=
  match name with
  | EmptyString => raise FileNotFoundError
  | String _ _ => ret tt
  end.

(** [sqlite3.connect(db_path)]: [Inacessivel] is a database file that
    SQLite cannot open, for which the call raises
    [sqlite3.OperationalError]. *)
Definition sqlite3_connect (db_path : string) : M (option Sqlite.tabela) :=
  λ w, match banco_em w db_path with
       | Sqlite.Inacessivel => (w, Raise OperationalError)
       | Sqlite.Banco t => (w, Ok t)
       end.

(** [cursor.execute("CREATE TABLE IF NOT EXISTS ...")], [conn.commit()] and
    [conn.close()] on a connection that opened are taken to succeed. *)
Definition setup_database (db_path : string) : M unit :=
  logging INFO (ConfigurandoBanco db_path) ;;;
  os_makedirs (os_path_dirname db_path) ;;;
  t <- sqlite3_connect db_path ;;
  (λ w, (com_bancos <[db_path := Sqlite.Banco (Some (Sqlite.create_table_if_not_exists t))]> w,
         Ok tt)) ;;;
  logging INFO BancoPronto.

(** *** extrair_keypoints *)

(** The loop [for idx, landmark in enumerate(...)]: [landmarks] is the list
    being appended to. *)
Fixpoint enumerate_landmarks (idx : Z) (pose_landmarks : list NormalizedLandmark.t)
    (landmarks : list LandmarkData.t) : result (list LandmarkData.t) :=
  match pose_landmarks with
  | [] => Ok landmarks
  | landmark :: resto =>
      match PoseLandmark_name idx with
      | None => Raise ValueError
      | Some nome =>
          let landmark_data :=
            LandmarkData.mk idx nome
              (NormalizedLandmark.x landmark) (NormalizedLandmark.y landmark)
              (NormalizedLandmark.z landmark) (NormalizedLandmark.visibility landmark) in
          enumerate_landmarks (idx + 1) resto (landmarks ++ [landmark_data])
      end
  end.

(** The loop [while cap.isOpened()]: [cap] is what is left of the video. *)
Fixpoint laco_frames (video_path : string) (cap : list Image) (frame_count : Z)
    (dados_brutos : list FrameData.t) : M (Z * list FrameData.t) :=
  match cap with
  | [] =>
      (* success is False: break *)
      chamar (CRead video_path) ;;;
      ret (frame_count, dados_brutos)
  | image :: cap' =>
      chamar (CRead video_path) ;;;
      pose_landmarks <- pose_process image ;;
      dados_brutos' <-
        match pose_landmarks with
        | Some ls =>
            λ w, match enumerate_landmarks 0 ls [] with
                 | Ok landmarks =>
                     (w, Ok (dados_brutos ++ [FrameData.mk frame_count landmarks]))
                 | Raise e => (w, Raise e)
                 end
        | None => ret dados_brutos
        end ;;
      laco_frames video_path cap' (frame_count + 1) dados_brutos'
  end.

(** [with open(path, 'w') as f: json.dump(dados_brutos, f, indent=2)], as
    the steps that change what is stored under [path]: opening creates or
    truncates the file, dumping and closing leaves the document. *)
(** [with open(path, 'w') as f: json.dump(dados_brutos, f, indent=2)], in
    the steps a reader of the file can tell apart: [open] creates or
    truncates the file, then the document is there.  The block runs after
    [os.makedirs]; in a world without permissions or disk limits both steps
    are taken to succeed. *)
Definition open_w (path : string) (w : Mundo) : Mundo :=
  com_arquivos <[path := ArqVazio]> w.
Definition json_dump (dados_brutos : list FrameData.t) (path : string) (w : Mundo) : Mundo :=
  com_arquivos <[path := ArqJson dados_brutos]> w.

Definition salvar_json_passos (path : string) (dados_brutos : list FrameData.t)
  : list (Mundo → Mundo) :=
  [open_w path; json_dump dados_brutos path].

Definition executar_passos (passos : list (Mundo → Mundo)) (w : Mundo) : Mundo :=
  fold_left (λ w' passo, passo w') passos w.

Definition salvar_json (path : string) (dados_brutos : list FrameData.t) : M unit :=
  λ w, (executar_passos (salvar_json_passos path dados_brutos) w, Ok tt).

(** [cv2.cvtColor] changes nothing that is observed here and is taken to
    succeed, and so are [open(path, 'w')] and [json.dump] once the directory
    is there. *)
Definition extrair_keypoints (video_path output_dir : string) : M Retorno :=
  let video_nome := os_path_basename video_path in
  logging INFO (Extraindo video_nome) ;;;
  cap <- cv2_VideoCapture video_path ;;
  match cap with
  | None =>
      logging ERROR (NaoFoiPossivelAbrir video_path) ;;;
      ret RetNone
  | Some frames =>
      r <- laco_frames video_path frames 0 [] ;;
      let frame_count := r.1 in
      let dados_brutos := r.2 in
      chamar (CRelease video_path) ;;;
      match dados_brutos with
      | _ :: _ =>
          let json_output_path := os_path_join output_dir (video_nome +:+ ".json") in
          os_makedirs output_dir ;;;
          salvar_json json_output_path dados_brutos ;;;
          logging INFO (ExtracaoConcluida frame_count) ;;;
          ret (RetTupla (Some video_nome) (Some json_output_path))
      | [] =>
          logging WARNING (NenhumaPose video_nome) ;;;
          ret (RetTupla None None)
      end
  end.

(** The world once [extrair_keypoints] has logged its first line and
    called [cv2.VideoCapture]. *)
Definition apos_abrir (video_path : string) (w : Mundo) : Mundo :=
  com_chamadas (chamadas w ++ [CVideoCapture video_path])
    (com_log (log w ++ [(INFO, Extraindo (os_path_basename video_path))]) w).

(** The videos a run tried to open, in order, read off the calls. *)
Definition tentativas (cs : list Chamada) : list string :=
  omap (λ c, match c with CVideoCapture p => Some p | _ => None end) cs.

(** The rows of the table of a database, none when there is no table. *)
Definition linhas_em (w : Mundo) (db_path : string) : list Linha.t :=
  match banco_em w db_path with
  | Sqlite.Banco (Some t) => t
  | _ => []
  end.

(** How a call may change the table at [db_path]: not at all, or by
    appending rows of the video [v]. *)
Definition so_acrescenta (v db_path : string) (w w' : Mundo) : Prop :=
  banco_em w' db_path = banco_em w db_path
  ∨ ∃ t novas,
      banco_em w db_path = Sqlite.Banco (Some t)
      ∧ banco_em w' db_path = Sqlite.Banco (Some (t ++ novas))
      ∧ ∀ l, l ∈ novas → Linha.video_nome l = v.

(** Where the artifact of a video goes. *)
Definition caminho_artefato (video_path : string) : string :=
  os_path_join KEYPOINTS_OUTPUT_DIR (os_path_basename video_path +:+ ".json").

(** What processing the videos [vs] may have done to the world: each was
    opened once, in order; only their artifacts were written; only the table
    of DB_FILE changed, by appending rows named after them. *)
Definition efeitos_de (vs : list string) (w w' : Mundo) : Prop :=
  entradas w' = entradas w ∧ videos w' = videos w
  ∧ tentativas (chamadas w') = tentativas (chamadas w) ++ vs
  ∧ (∀ p, (∀ v, v ∈ vs → p ≠ caminho_artefato v) →
       arquivos w' !! p = arquivos w !! p)
  ∧ (∀ db, db ≠ DB_FILE → bancos w' !! db = bancos w !! db)
  ∧ ∃ novas,
      linhas_em w' DB_FILE = linhas_em w DB_FILE ++ novas
      ∧ ∀ l, l ∈ novas → ∃ v, v ∈ vs ∧ Linha.video_nome l = os_path_basename v.

(** *** transformar_e_carregar *)

(** [with open(json_path, 'r') as f: dados_brutos = json.load(f)]. *)
Definition json_load (json_path : string) : M (list FrameData.t) :=
  λ w, match arquivos w !! json_path with
       | None => (w, Raise FileNotFoundError)
       | Some ArqVazio => (w, Raise JSONDecodeError)
       | Some (ArqJson dados_brutos) => (w, Ok dados_brutos)
       end.

(** The inner loop [for landmark in frame_data['landmarks']], appending to
    [linhas_para_db]. *)
Definition laco_landmarks (video_nome : string) (data_proc_str : string)
    (frame_id : Z) (landmarks : list LandmarkData.t)
    (linhas_para_db : list Linha.t) : list Linha.t :=
  fold_left
    (λ linhas landmark,
       linhas ++ [Linha.mk video_nome frame_id
                    (LandmarkData.id landmark) (LandmarkData.nome landmark)
                    (LandmarkData.x landmark) (LandmarkData.y landmark)
                    (LandmarkData.z landmark) (LandmarkData.visibility landmark)
                    data_proc_str])
    landmarks linhas_para_db.

(** The outer loop [for frame_data in dados_brutos], from
    [linhas_para_db = []]. *)
Definition linhas_para_db (video_nome : string) (dados_brutos : list FrameData.t)
    (data_proc_str : string) : list Linha.t :=
  fold_left
    (λ linhas frame_data,
       let frame_id := FrameData.frame frame_data in
       laco_landmarks video_nome data_proc_str frame_id
         (FrameData.landmarks frame_data) linhas)
    dados_brutos [].

(** The block (L): [try: ... except sqlite3.Error as e: ... finally: ...].
    [conn] is the local that the [finally] clause reads: it is bound only
    if [sqlite3.connect] returned. *)
Definition carregar (db_path : string) (linhas : list Linha.t) : M unit :=
  λ w,
    (* try *)
    let '(w1, conn, r) :=
      match sqlite3_connect db_path w with
      | (w', Raise e) => (w', None, Raise e)
      | (w', Ok None) =>
          (* executemany: no such table *)
          (w', Some db_path, Raise OperationalError)
      | (w', Ok (Some t)) =>
          let '(t', rowcount) := Sqlite.executemany linhas t 0 in
          (* conn.commit() *)
          let w'' := com_bancos <[db_path := Sqlite.Banco (Some t')]> w' in
          let '(w''', r) := logging INFO (Sucesso rowcount) w'' in
          (w''', Some db_path, r)
      end in
    (* except sqlite3.Error as e *)
    let '(w2, r2) :=
      match r with
      | Raise e =>
          if is_sqlite3_Error e then logging ERROR (ErroSqlite e) w1
          else (w1, Raise e)
      | Ok u => (w1, Ok u)
      end in
    (* finally: if conn: conn.close() *)
    match conn with
    | None => (w2, Raise UnboundLocalError)
    | Some _ => (w2, r2)
    end.

Definition transformar_e_carregar (video_nome : string) (json_path : option string)
    (db_path : string) : M unit :=
  match json_path with
  | None | Some EmptyString => ret tt
  | Some caminho =>
      logging INFO (Processando video_nome) ;;;
      dados_brutos <- json_load caminho ;;
      data_proc_str <- utcnow_isoformat ;;
      let linhas := linhas_para_db video_nome dados_brutos data_proc_str in
      match linhas with
      | [] => logging WARNING NenhumaLinha
      | _ :: _ => carregar db_path linhas
      end
  end.

(** *** main *)

(** The body of the [try] in the loop of [main]. *)
Definition processar_video (video_path : string) : M unit :=
  r <- extrair_keypoints video_path KEYPOINTS_OUTPUT_DIR ;;
  match r with
  | RetNone => raise TypeError       (* video_nome, json_path = None *)
  | RetTupla video_nome json_path =>
      match video_nome with
      | Some nome =>
          if verdadeiro video_nome
          then transformar_e_carregar nome json_path DB_FILE
          else ret tt
      | None => ret tt
      end
  end.

(** [for video_path in videos: try: ... except Exception as e: ...]. *)
Fixpoint laco_videos (videos : list string) : M unit :=
  match videos with
  | [] => ret tt
  | video_path :: resto =>
      try_except_Exception (processar_video video_path)
        (λ e, logging ERROR (Falha video_path e)) ;;;
      laco_videos resto
  end.

Definition glob_videos : M (list string) :=
  λ w, (w, Ok (glob_mp4 VIDEO_INPUT_DIR (entradas w))).

Definition main : M unit :=
  logging INFO Iniciando ;;;
  setup_database DB_FILE ;;;
  videos <- glob_videos ;;
  match videos with
  | [] => logging WARNING (NenhumVideo VIDEO_INPUT_DIR)
  | _ :: _ =>
      logging INFO (Encontrados (length videos)) ;;;
      laco_videos videos ;;;
      logging INFO Concluido
  end.

End Pipeline.

Arguments Mundo : clear implicits.
Arguments M : clear implicits.

(** ** A concrete run *)

(** Three videos in the input directory next to files the pattern leaves
    out: A.mp4 cannot be opened, B.mp4 has three frames with two landmarks
    each, C.mp4 has two frames without any pose, S.mp4 shows a pose on its
    frames 0 and 2 only.  A decoded frame is represented by what the detector
    finds in it, and the detector state counts the frames seen. *)
Module Exemplo.

Definition Imagem : Type := option (list NormalizedLandmark.t).

Definition process (p : nat) (image : Imagem) : nat * option (list NormalizedLandmark.t) :=
  (S p, image).

(** The members of [mp_pose.PoseLandmark], by value. *)
Definition PoseLandmark_nomes : list string :=
  ["NOSE"; "LEFT_EYE_INNER"; "LEFT_EYE"; "LEFT_EYE_OUTER"; "RIGHT_EYE_INNER";
   "RIGHT_EYE"; "RIGHT_EYE_OUTER"; "LEFT_EAR"; "RIGHT_EAR"; "MOUTH_LEFT";
   "MOUTH_RIGHT"; "LEFT_SHOULDER"; "RIGHT_SHOULDER"; "LEFT_ELBOW";
   "RIGHT_ELBOW"; "LEFT_WRIST"; "RIGHT_WRIST"; "LEFT_PINKY"; "RIGHT_PINKY";
   "LEFT_INDEX"; "RIGHT_INDEX"; "LEFT_THUMB"; "RIGHT_THUMB"; "LEFT_HIP";
   "RIGHT_HIP"; "LEFT_KNEE"; "RIGHT_KNEE"; "LEFT_ANKLE"; "RIGHT_ANKLE";
   "LEFT_HEEL"; "RIGHT_HEEL"; "LEFT_FOOT_INDEX"; "RIGHT_FOOT_INDEX"].

Definition PoseLandmark_name (idx : Z) : option string :=
  if decide (0 ≤ idx) then PoseLandmark_nomes !! Z.to_nat idx else None.

Definition isoformat (n : nat) : string :=
  "2024-05-01T12:00:0" +:+ String (ascii_of_nat (48 + n)) "".

Definition nariz : NormalizedLandmark.t :=
  NormalizedLandmark.mk 0.5%float 0.25%float (-0.125)%float 0.875%float.
Definition olho : NormalizedLandmark.t :=
  NormalizedLandmark.mk 0.625%float 0.125%float (-0.25)%float 0.75%float.

Definition com_pose : Imagem := Some [nariz; olho].
Definition sem_pose : Imagem := None.

Definition video_A : string := "/app/videos_input/A.mp4".
Definition video_B : string := "/app/videos_input/B.mp4".
Definition video_C : string := "/app/videos_input/C.mp4".
Definition video_S : string := "/app/videos_input/S.mp4".

Definition mundo : Mundo Imagem nat :=
  mkMundo
    ["A.mp4"; "B.mp4"; "C.mp4"; "D.avi"; "e.MP4"; ".f.mp4"; "S.mp4"]
    {[ video_B := [com_pose; com_pose; com_pose];
       video_C := [sem_pose; sem_pose];
       video_S := [com_pose; sem_pose; com_pose] ]}
    ∅ ∅ 0%nat 0%nat [] [].

(** The same world once [setup_database] has run. *)
Definition mundo_pronto : Mundo Imagem nat :=
  (setup_database DB_FILE mundo).1.

(** The world after the capture of S.mp4, and its artifact. *)
Definition mundo_capturado : Mundo Imagem nat :=
  (extrair_keypoints process PoseLandmark_name video_S KEYPOINTS_OUTPUT_DIR
     mundo_pronto).1.
Definition artefato_S : string := "/app/keypoints_output/S.mp4.json".

(** The records captured from S.mp4 and the rows made of them. *)
Definition dados_S : list FrameData.t :=
  [FrameData.mk 0
     [LandmarkData.mk 0 "NOSE" 0.5%float 0.25%float (-0.125)%float 0.875%float;
      LandmarkData.mk 1 "LEFT_EYE_INNER" 0.625%float 0.125%float (-0.25)%float 0.75%float];
   FrameData.mk 2
     [LandmarkData.mk 0 "NOSE" 0.5%float 0.25%float (-0.125)%float 0.875%float;
      LandmarkData.mk 1 "LEFT_EYE_INNER" 0.625%float 0.125%float (-0.25)%float 0.75%float]].
Definition linhas_S : list Linha.t :=
  linhas_para_db "S.mp4" dados_S (isoformat 0).

(** The world in which the write of the artifact of S.mp4 starts: frames
    read, capture released, nothing written yet. *)
Definition mundo_antes_de_gravar : Mundo Imagem nat :=
  let r := laco_frames process PoseLandmark_name video_S
             [com_pose; sem_pose; com_pose] 0 [] (apos_abrir video_S mundo_pronto) in
  com_chamadas (chamadas r.1 ++ [CRelease video_S]) r.1.

End Exemplo.

(** The claim that the artifact is written atomically, in its words: at
    every point of the write, what is visible under the artifact's name is
    what was there before or the complete new document. *)
Definition gravacao_atomica {Image Pose : Type} (path : string)
    (dados_brutos : list FrameData.t) (w : Mundo Image Pose) : Prop :=
  ∀ n,
    let wn := executar_passos (take n (salvar_json_passos path dados_brutos)) w in
    arquivos wn !! path = arquivos w !! path
    ∨ arquivos wn !! path = Some (ArqJson dados_brutos).

(** ** Notions used to describe whole runs *)

Section Descricoes.
Context {Image Pose : Type}.
Variable process : Pose → Image → Pose * option (list NormalizedLandmark.t).

(** The tracking state of the detector once it has seen [frames] in order. *)
Definition estado_final (p : Pose) (frames : list Image) : Pose :=
  fold_left (λ p' image, (process p' image).1) frames p.

(** The calls the frame loop makes on a video of [n] frames: each frame is
    read and handed to the detector, then comes the read that fails. *)
Definition leituras (video_path : string) (n : nat) : list Chamada :=
  mjoin (replicate n [CRead video_path; CProcess]) ++ [CRead video_path].

(** The table of [db_path] in [w'] comes from the one in [w] through a
    sequence of batches of INSERT OR IGNORE, and through nothing else. *)
Definition por_cargas (db_path : string) (w w' : Mundo Image Pose) : Prop :=
  ∃ lotes : list (list Linha.t),
    linhas_em w' db_path
    = fold_left (λ t linhas, (Sqlite.executemany linhas t 0).1) lotes
        (linhas_em w db_path).

End Descricoes.

(** A capture in which no two records share a frame index and, within a
    record, no two landmarks share an id. *)
Definition sem_repeticao (dados : list FrameData.t) : Prop :=
  NoDup (FrameData.frame <$> dados)
  ∧ ∀ fd, fd ∈ dados → NoDup (LandmarkData.id <$> FrameData.landmarks fd).

(** Further concrete worlds: a video on which the detector answers with
    more landmarks than [PoseLandmark] has members, an artifact next to a
    database without the table, next to a database that cannot be opened,
    an artifact that is empty, and the video S.mp4 next to a database that
    cannot be opened. *)
Module Exemplo2.

Definition video_X : string := "/app/videos_input/X.mp4".

Definition mundo_X : Mundo Exemplo.Imagem nat :=
  mkMundo ["X.mp4"]
    {[ video_X := [Exemplo.com_pose; Some (replicate 34 Exemplo.nariz)] ]}
    ∅ {[ DB_FILE := Sqlite.Banco (Some []) ]} 0%nat 0%nat [] [].

Definition mundo_sem_tabela : Mundo Exemplo.Imagem nat :=
  mkMundo [] ∅ {[ Exemplo.artefato_S := ArqJson Exemplo.dados_S ]}
    ∅ 0%nat 0%nat [] [].

Definition mundo_inacessivel : Mundo Exemplo.Imagem nat :=
  mkMundo [] ∅ {[ Exemplo.artefato_S := ArqJson Exemplo.dados_S ]}
    {[ DB_FILE := Sqlite.Inacessivel ]} 0%nat 0%nat [] [].

Definition mundo_truncado : Mundo Exemplo.Imagem nat :=
  mkMundo [] ∅ {[ Exemplo.artefato_S := ArqVazio ]}
    {[ DB_FILE := Sqlite.Banco (Some []) ]} 0%nat 0%nat [] [].

Definition mundo_banco_fechado : Mundo Exemplo.Imagem nat :=
  mkMundo ["S.mp4"]
    {[ Exemplo.video_S := [Exemplo.com_pose; Exemplo.sem_pose; Exemplo.com_pose] ]}
    ∅ {[ DB_FILE := Sqlite.Inacessivel ]} 0%nat 0%nat [] [].

End Exemplo2.

(** * Properties *)

(** ** Paths and patterns *)

Section StringFacts.

Lemma string_app_cons c (a b : string) : String c a +:+ b = String c (a +:+ b).
Proof. reflexivity. Qed.

Lemma endswith_refl s : endswith s s = true.
Proof. destruct s; cbn [endswith]; by rewrite bool_decide_eq_true_2. Qed.

Lemma endswith_cons c s suf : endswith s suf = true → endswith (String c s) suf = true.
Proof. intros H. cbn [endswith]. rewrite H. apply orb_true_r. Qed.

Lemma endswith_app a s suf : endswith s suf = true → endswith (a +:+ s) suf = true.
Proof. intros H. induction a as [|c a IH]; [done|]. rewrite string_app_cons. by apply endswith_cons. Qed.

(** A suffix without a slash lies after the last slash. *)
Lemma tem_barra_app a b : tem_barra (a +:+ b) = tem_barra a || tem_barra b.
Proof. induction a as [|c a IH]; [done|]. rewrite string_app_cons. cbn [tem_barra]. by rewrite IH, orb_assoc. Qed.

Lemma endswith_tem_barra s suf :
  endswith s suf = true → tem_barra suf = true → tem_barra s = true.
Proof.
  induction s as [|c s IH]; cbn [endswith tem_barra]; intros H Hs.
  - rewrite orb_false_r in H. apply bool_decide_eq_true in H. by subst.
  - apply orb_true_iff in H as [H|H].
    + apply bool_decide_eq_true in H. by subst.
    + rewrite IH by done. apply orb_true_r.
Qed.

Lemma endswith_apos_barra a s suf :
  tem_barra suf = false →
  endswith (a +:+ String barra s) suf = true → endswith s suf = true.
Proof.
  intros Hsuf. induction a as [|c a IH]; [change ("" +:+ String barra s) with (String barra s)|rewrite string_app_cons]; cbn [endswith]; intros H.
  - apply orb_true_iff in H as [H|H]; [|done].
    apply bool_decide_eq_true in H. subst suf. cbn [tem_barra] in Hsuf.
    by rewrite bool_decide_eq_true_2 in Hsuf.
  - apply orb_true_iff in H as [H|H]; [|by apply IH].
    apply bool_decide_eq_true in H. subst suf. cbn [tem_barra] in Hsuf.
    apply orb_false_iff in Hsuf as [_ Hsuf].
    rewrite tem_barra_app in Hsuf. cbn [tem_barra] in Hsuf.
    rewrite bool_decide_eq_true_2 in Hsuf by done.
    by rewrite orb_true_r in Hsuf.
Qed.

Lemma basename_endswith p suf :
  tem_barra suf = false →
  endswith p suf = true → endswith (os_path_basename p) suf = true.
Proof.
  intros Hsuf. induction p as [|c p IH]; [done|]. intros H.
  cbn [os_path_basename]. destruct (tem_barra p) eqn:Hp.
  - apply IH. cbn [endswith] in H. apply orb_true_iff in H as [H|H]; [|done].
    apply bool_decide_eq_true in H. subst suf. cbn [tem_barra] in Hsuf.
    apply orb_false_iff in Hsuf as [_ Hsuf]. congruence.
  - case_bool_decide as Hc; [|done].
    cbn [endswith] in H. apply orb_true_iff in H as [H|H]; [|done].
    apply bool_decide_eq_true in H. subst suf c. cbn [tem_barra] in Hsuf.
    by rewrite bool_decide_eq_true_2 in Hsuf.
Qed.

Lemma basename_sem_barra p : tem_barra (os_path_basename p) = false.
Proof.
  induction p as [|c p IH]; [done|]. cbn [os_path_basename].
  destruct (tem_barra p) eqn:Hp; [done|].
  case_bool_decide as Hc; [done|]. cbn [tem_barra]. rewrite Hp.
  by rewrite bool_decide_eq_false_2.
Qed.

(** Strings as lists of characters, to cancel on the right. *)
Lemma string_app_inv_tail (a b s : string) : a +:+ s = b +:+ s → a = b.
Proof.
  intros H.
  assert (∀ x y, String.list_ascii_of_string (x +:+ y)
                 = String.list_ascii_of_string x ++ String.list_ascii_of_string y) as Happ.
  { intros x y. induction x as [|c x IH]; [done|]. rewrite string_app_cons. simpl. by rewrite IH. }
  apply (f_equal String.list_ascii_of_string) in H. rewrite !Happ in H.
  apply app_inv_tail in H.
  rewrite <- (String.string_of_list_ascii_of_string a),
          <- (String.string_of_list_ascii_of_string b). by rewrite H.
Qed.

Lemma glob_mp4_elem_of dir es p :
  p ∈ glob_mp4 dir es ↔
  ∃ nome, nome ∈ es ∧ glob_casa_mp4 nome = true ∧ p = os_path_join dir nome.
Proof.
  unfold glob_mp4. rewrite list_elem_of_fmap. split.
  - intros (n & -> & Hn). apply list_elem_of_filter in Hn as [? ?]. by exists n.
  - intros (n & Hn & Hc & ->). exists n. split; [done|].
    by apply list_elem_of_filter.
Qed.

Lemma os_path_join_endswith a b suf :
  endswith b suf = true → endswith (os_path_join a b) suf = true.
Proof.
  intros H. unfold os_path_join.
  destruct (startswith_barra b); [done|].
  destruct (_ || _); [by apply endswith_app|].
  apply endswith_app. by apply (endswith_app "/").
Qed.

Lemma glob_mp4_endswith dir es p :
  p ∈ glob_mp4 dir es → endswith p ".mp4" = true.
Proof.
  intros (n & _ & Hc & ->)%glob_mp4_elem_of.
  apply os_path_join_endswith.
  unfold glob_casa_mp4 in Hc. by apply andb_true_iff in Hc as [_ ?].
Qed.

(** Joining a fixed directory with a name that does not end in ".mp4"
    gives a path that does not either. *)
Lemma os_path_join_nao_mp4 nome :
  endswith nome ".mp4" = false →
  endswith (os_path_join VIDEO_INPUT_DIR nome) ".mp4" = false.
Proof.
  intros H. unfold os_path_join.
  destruct (startswith_barra nome); [done|].
  replace (bool_decide (VIDEO_INPUT_DIR = "") || endswith VIDEO_INPUT_DIR "/")
    with false by (by vm_compute).
  apply not_true_is_false. intros E.
  apply (endswith_apos_barra VIDEO_INPUT_DIR nome ".mp4") in E; [congruence|done].
Qed.

Lemma string_app_assoc (a b c : string) : (a +:+ b) +:+ c = a +:+ (b +:+ c).
Proof.
  induction a as [|x a IH]; [done|]. rewrite !string_app_cons. by rewrite IH.
Qed.

Lemma os_path_join_KEYPOINTS x :
  startswith_barra x = false →
  os_path_join KEYPOINTS_OUTPUT_DIR x = KEYPOINTS_OUTPUT_DIR +:+ "/" +:+ x.
Proof.
  intros H. unfold os_path_join. rewrite H.
  by replace (bool_decide (KEYPOINTS_OUTPUT_DIR = "")
              || endswith KEYPOINTS_OUTPUT_DIR "/") with false by (by vm_compute).
Qed.

Lemma startswith_barra_sem_barra s suf :
  tem_barra s = false → startswith_barra suf = false →
  startswith_barra (s +:+ suf) = false.
Proof.
  destruct s as [|c s]; [done|]. rewrite string_app_cons.
  cbn [tem_barra startswith_barra]. by intros [? _]%orb_false_iff _.
Qed.

(** The artifact of a file that does not end in ".mp4" is not the artifact
    of a video that does. *)
Lemma artefato_distinto nome v :
  endswith nome ".mp4" = false → endswith v ".mp4" = true →
  os_path_join KEYPOINTS_OUTPUT_DIR (nome +:+ ".json")
  ≠ os_path_join KEYPOINTS_OUTPUT_DIR (os_path_basename v +:+ ".json").
Proof.
  intros Hn Hv E.
  pose proof (basename_sem_barra v) as Hsb.
  pose proof (basename_endswith v ".mp4" eq_refl Hv) as Hbn.
  rewrite (os_path_join_KEYPOINTS (os_path_basename v +:+ ".json")) in E
    by (by apply startswith_barra_sem_barra).
  destruct (startswith_barra (nome +:+ ".json")) eqn:Hs.
  - unfold os_path_join in E. rewrite Hs in E.
    rewrite <- !string_app_assoc in E. apply string_app_inv_tail in E.
    rewrite E, string_app_assoc in Hn.
    rewrite endswith_app in Hn; [done|]. by apply endswith_app.
  - rewrite os_path_join_KEYPOINTS in E by done.
    do 2 apply (inj (String.app _)) in E. apply string_app_inv_tail in E.
    congruence.
Qed.

End StringFacts.

(** ** INSERT OR IGNORE *)

Section SqliteFacts.
Import Sqlite.

Lemma insert_or_ignore_colisao l t :
  Linha.chave l ∈ chaves t → insert_or_ignore l t = (t, 0%nat).
Proof. intros H. unfold insert_or_ignore. by rewrite decide_True. Qed.

Lemma insert_or_ignore_nova l t :
  Linha.chave l ∉ chaves t → insert_or_ignore l t = (t ++ [l], 1%nat).
Proof. intros H. unfold insert_or_ignore. by rewrite decide_False. Qed.

Lemma chaves_app t1 t2 : chaves (t1 ++ t2) = chaves t1 ++ chaves t2.
Proof. unfold chaves. apply fmap_app. Qed.

(** The running count only adds up. *)
Lemma executemany_rowcount linhas : ∀ t n,
  executemany linhas t n = ((executemany linhas t 0).1, (n + (executemany linhas t 0).2)%nat).
Proof.
  induction linhas as [|l resto IH]; intros t n; simpl.
  - by rewrite Nat.add_0_r.
  - destruct (insert_or_ignore l t) as [t' c].
    rewrite (IH t' (n + c)%nat), (IH t' c). simpl. f_equal. lia.
Qed.

(** Rows are only appended: what was stored stays where it was. *)
Lemma executemany_prefixo linhas : ∀ t n,
  ∃ novas, (executemany linhas t n).1 = t ++ novas
           ∧ (executemany linhas t n).2 = (n + length novas)%nat
           ∧ novas ⊆ linhas.
Proof.
  induction linhas as [|l resto IH]; intros t n; simpl.
  - exists []. rewrite app_nil_r. simpl. split_and!; [done|lia|done].
  - unfold insert_or_ignore. case_decide.
    + destruct (IH t (n + 0)%nat) as (novas & -> & -> & Hsub).
      exists novas. split_and!; [done|lia|]. by apply list_subseteq_cons.
    + destruct (IH (t ++ [l]) (n + 1)%nat) as (novas & -> & -> & Hsub).
      exists (l :: novas). rewrite <- app_assoc. simpl.
      split_and!; [done|lia|]. intros x [->|Hx]%elem_of_cons; [left|right; auto].
Qed.

Lemma executemany_mantem_chaves linhas t n k :
  k ∈ chaves t → k ∈ chaves (executemany linhas t n).1.
Proof.
  intros Hk. destruct (executemany_prefixo linhas t n) as (novas & -> & _).
  rewrite chaves_app. apply elem_of_app. by left.
Qed.

(** After a batch every key of the batch is stored. *)
Lemma executemany_chaves_presentes linhas : ∀ t n l,
  l ∈ linhas → Linha.chave l ∈ chaves (executemany linhas t n).1.
Proof.
  induction linhas as [|l0 resto IH]; intros t n l Hl; [by apply elem_of_nil in Hl|].
  simpl. destruct (insert_or_ignore l0 t) as [t' c] eqn:E.
  apply elem_of_cons in Hl as [->|Hl]; [|by apply IH].
  apply executemany_mantem_chaves.
  unfold insert_or_ignore in E. case_decide; simplify_eq; [done|].
  rewrite chaves_app. apply elem_of_app. right. simpl. by left.
Qed.

(** A batch whose keys are all stored changes nothing and counts nothing. *)
Lemma executemany_tudo_ignorado linhas : ∀ t n,
  (∀ l, l ∈ linhas → Linha.chave l ∈ chaves t) →
  executemany linhas t n = (t, n).
Proof.
  induction linhas as [|l resto IH]; intros t n H; [done|]. simpl.
  rewrite insert_or_ignore_colisao by (apply H; left).
  rewrite IH; [f_equal; lia|]. intros l' Hl'. apply H. by right.
Qed.

Lemma executemany_NoDup linhas : ∀ t n,
  NoDup (chaves t) → NoDup (chaves (executemany linhas t n).1).
Proof.
  induction linhas as [|l resto IH]; intros t n Hnd; [done|]. simpl.
  unfold insert_or_ignore. case_decide; apply IH; [done|].
  rewrite chaves_app. apply NoDup_app. split_and!; [done| |apply NoDup_singleton].
  intros k Hk [->|[]%elem_of_nil]%elem_of_cons. done.
Qed.

Lemma busca_app k t novas r :
  busca k t = Some r → busca k (t ++ novas) = Some r.
Proof.
  unfold busca. rewrite filter_app.
  destruct (filter _ t); [done|]. by simpl.
Qed.

Lemma busca_executemany linhas t n k r :
  busca k t = Some r → busca k (executemany linhas t n).1 = Some r.
Proof.
  intros H. destruct (executemany_prefixo linhas t n) as (novas & -> & _).
  by apply busca_app.
Qed.

Lemma busca_Some_chave k t r : busca k t = Some r → Linha.chave r = k ∧ r ∈ t.
Proof.
  unfold busca. intros H. apply head_Some_elem_of in H.
  by apply list_elem_of_filter in H.
Qed.

Lemma busca_is_Some k t : k ∈ chaves t → is_Some (busca k t).
Proof.
  unfold chaves, busca. intros (l & -> & Hl)%list_elem_of_fmap.
  assert (l ∈ filter (λ l0, Linha.chave l0 = Linha.chave l) t) as H
    by (by apply list_elem_of_filter).
  destruct (filter _ t); [by apply elem_of_nil in H|]. by eexists.
Qed.

Lemma executemany_sublist linhas : ∀ t n,
  ∃ novas, (executemany linhas t n).1 = t ++ novas ∧ novas `sublist_of` linhas.
Proof.
  induction linhas as [|l resto IH]; intros t n; simpl.
  - exists []. by rewrite app_nil_r.
  - unfold insert_or_ignore. case_decide.
    + destruct (IH t (n + 0)%nat) as (novas & -> & Hsub).
      exists novas. split; [done|]. by apply sublist_cons.
    + destruct (IH (t ++ [l]) (n + 1)%nat) as (novas & -> & Hsub).
      exists (l :: novas). rewrite <- app_assoc. split; [done|].
      by apply sublist_skip.
Qed.

(** A batch of rows with distinct keys, none of them stored, is inserted
    whole. *)
Lemma executemany_todas_novas linhas : ∀ t n,
  NoDup (chaves linhas) →
  (∀ l, l ∈ linhas → Linha.chave l ∉ chaves t) →
  executemany linhas t n = (t ++ linhas, (n + length linhas)%nat).
Proof.
  induction linhas as [|l resto IH]; intros t n Hnd Hnew; simpl.
  - rewrite app_nil_r. f_equal. lia.
  - rewrite insert_or_ignore_nova by (apply Hnew; left).
    apply NoDup_cons in Hnd as [Hl Hnd].
    rewrite IH; [rewrite <- app_assoc; simpl; f_equal; lia|done|].
    intros l' Hl'. rewrite chaves_app. intros [Hin|Hin]%elem_of_app.
    + by apply (Hnew l'); [right|].
    + apply list_elem_of_singleton in Hin. apply Hl. rewrite <- Hin.
      by apply list_elem_of_fmap_2.
Qed.

End SqliteFacts.

(** ** Load *)

Section LoadFacts.
Context {Image Pose : Type}.
Implicit Types w : Mundo Image Pose.
Import Sqlite.

Lemma carregar_com_tabela w db_path linhas t :
  banco_em w db_path = Banco (Some t) →
  carregar db_path linhas w =
    (com_log (log w ++ [(INFO, Sucesso (executemany linhas t 0).2)])
       (com_bancos <[db_path := Banco (Some (executemany linhas t 0).1)]> w),
     Ok tt).
Proof.
  intros Hb. unfold carregar, sqlite3_connect. rewrite Hb.
  destruct (executemany linhas t 0) as [t' n]. reflexivity.
Qed.

Lemma banco_em_insert w db_path b f :
  banco_em (com_log f (com_bancos <[db_path := b]> w)) db_path = b.
Proof. unfold banco_em. simpl. by rewrite lookup_insert_eq. Qed.

(** C1. Loading the same rows a second time inserts nothing (the count
    logged by the second call is 0), leaves the databases exactly as the
    first call left them, and a row whose key was already stored before the
    first call is still the row stored under that key. *)
Theorem carregar_idempotente w db_path linhas t :
  banco_em w db_path = Banco (Some t) →
  let w1 := (carregar db_path linhas w).1 in
  let w2 := (carregar db_path linhas w1).1 in
  (carregar db_path linhas w1).2 = Ok tt
  ∧ log w2 = log w1 ++ [(INFO, Sucesso 0)]
  ∧ bancos w2 = bancos w1
  ∧ ∃ t1, banco_em w1 db_path = Banco (Some t1)
          ∧ (∀ l, l ∈ linhas → insert_or_ignore l t1 = (t1, 0%nat))
          ∧ (∀ k r, busca k t = Some r → busca k t1 = Some r).
Proof.
  intros Hb w1 w2. subst w1 w2.
  rewrite (carregar_com_tabela w db_path linhas t Hb). cbn [fst].
  set (t1 := (executemany linhas t 0).1).
  set (w1 := com_log _ _).
  assert (banco_em w1 db_path = Banco (Some t1)) as Hb1
    by apply banco_em_insert.
  assert (executemany linhas t1 0 = (t1, 0%nat)) as Hre.
  { apply executemany_tudo_ignorado. intros l Hl.
    by apply executemany_chaves_presentes. }
  rewrite (carregar_com_tabela w1 db_path linhas t1 Hb1), Hre. cbn [fst snd].
  split_and!; [done|done| |].
  - simpl. apply insert_insert_eq.
  - exists t1. split_and!; [done| |].
    + intros l Hl. apply insert_or_ignore_colisao.
      by apply executemany_chaves_presentes.
    + intros k r Hk. by apply busca_executemany.
Qed.

(** C2. In every state the table can reach from its creation through
    batches of INSERT OR IGNORE, no two rows share the key
    (video_nome, frame, landmark_id); inserting a row whose key is stored
    changes nothing and reports no change, and whatever batch follows, the
    row stored under a key stays the row first written there. *)
Theorem chave_unica_em_todo_estado (t : tabela) :
  alcancavel t →
  NoDup (chaves t)
  ∧ (∀ l, Linha.chave l ∈ chaves t → insert_or_ignore l t = (t, 0%nat))
  ∧ (∀ linhas k r, busca k t = Some r →
       busca k (executemany linhas t 0).1 = Some r
       ∧ NoDup (chaves (executemany linhas t 0).1)).
Proof.
  intros Halc.
  assert (NoDup (chaves t)) as Hnd.
  { induction Halc as [|linhas t _ IH]; [apply NoDup_nil_2|].
    by apply executemany_NoDup. }
  split_and!; [done|by intros l Hl; apply insert_or_ignore_colisao|].
  intros linhas k r Hk. split; [by apply busca_executemany|].
  by apply executemany_NoDup.
Qed.

End LoadFacts.

(** ** Transform *)

Section TransformFacts.
Context {Image Pose : Type}.
Variable isoformat : nat → string.
Implicit Types w : Mundo Image Pose.
Import Sqlite.

Lemma laco_landmarks_app v ts fid lms : ∀ acc,
  laco_landmarks v ts fid lms acc = acc ++ (linha_de v ts fid <$> lms).
Proof.
  unfold laco_landmarks.
  induction lms as [|lm lms IH]; intros acc; simpl.
  - by rewrite app_nil_r.
  - rewrite IH, <- app_assoc. reflexivity.
Qed.

Lemma linhas_para_db_join v dados ts :
  linhas_para_db v dados ts =
  mjoin ((λ fd, linha_de v ts (FrameData.frame fd) <$> FrameData.landmarks fd) <$> dados).
Proof.
  unfold linhas_para_db.
  enough (∀ acc,
    fold_left (λ linhas fd,
        laco_landmarks v ts (FrameData.frame fd) (FrameData.landmarks fd) linhas)
      dados acc
    = acc ++ mjoin ((λ fd, linha_de v ts (FrameData.frame fd)
                             <$> FrameData.landmarks fd) <$> dados)) as H
    by apply (H []).
  induction dados as [|fd dados IH]; intros acc; csimpl.
  - by rewrite app_nil_r.
  - rewrite IH, laco_landmarks_app, <- app_assoc. reflexivity.
Qed.

Lemma sum_list_fmap_with {A} (f : A → nat) (l : list A) :
  sum_list (f <$> l) = sum_list_with f l.
Proof. induction l as [|a l IH]; csimpl; [done|]. by rewrite IH. Qed.

Lemma sum_list_with_ext {A} (f g : A → nat) (l : list A) :
  (∀ a, f a = g a) → sum_list_with f l = sum_list_with g l.
Proof. intros H. induction l as [|a l IH]; simpl; [done|]. by rewrite H, IH. Qed.

Lemma linhas_para_db_length v dados ts :
  length (linhas_para_db v dados ts)
  = sum_list_with (λ fd, length (FrameData.landmarks fd)) dados.
Proof.
  rewrite linhas_para_db_join.
  rewrite length_join, <- list_fmap_compose, sum_list_fmap_with.
  apply sum_list_with_ext. intros fd. simpl. apply length_fmap.
Qed.

Lemma linhas_para_db_lookup v dados ts n l :
  linhas_para_db v dados ts !! n = Some l ↔
  ∃ i fd j lm,
    dados !! i = Some fd
    ∧ FrameData.landmarks fd !! j = Some lm
    ∧ n = (sum_list_with (λ fd, length (FrameData.landmarks fd)) (take i dados) + j)%nat
    ∧ l = linha_de v ts (FrameData.frame fd) lm.
Proof.
  rewrite linhas_para_db_join, join_lookup_Some. split.
  - intros (i & ls & j & Hi & Hj & ->).
    apply list_lookup_fmap_Some in Hi as (fd & -> & Hfd).
    apply list_lookup_fmap_Some in Hj as (lm & -> & Hlm).
    exists i, fd, j, lm. split_and!; [done|done| |done].
    f_equal. rewrite <- fmap_take, <- list_fmap_compose, sum_list_fmap_with.
    apply sum_list_with_ext. intros a. simpl. apply length_fmap.
  - intros (i & fd & j & lm & Hi & Hj & -> & ->).
    exists i, (linha_de v ts (FrameData.frame fd) <$> FrameData.landmarks fd), j.
    split_and!.
    + rewrite list_lookup_fmap, Hi. done.
    + rewrite list_lookup_fmap, Hj. done.
    + f_equal. rewrite <- fmap_take, <- list_fmap_compose, sum_list_fmap_with.
      apply sum_list_with_ext. intros a. simpl. symmetry. apply length_fmap.
Qed.

(** C3. The rows built from a capture are as many as its landmarks,
    summed over the frames, and they are exactly, frame after frame and
    landmark after landmark, the rows carrying the video name, the frame's
    index and the landmark's id, name, x, y, z and visibility. *)
Theorem linhas_para_db_uma_por_landmark v dados ts :
  length (linhas_para_db v dados ts)
    = sum_list_with (λ fd, length (FrameData.landmarks fd)) dados
  ∧ ∀ n l,
      linhas_para_db v dados ts !! n = Some l ↔
      ∃ i fd j lm,
        dados !! i = Some fd
        ∧ FrameData.landmarks fd !! j = Some lm
        ∧ n = (sum_list_with (λ fd, length (FrameData.landmarks fd)) (take i dados) + j)%nat
        ∧ l = Linha.mk v (FrameData.frame fd)
                (LandmarkData.id lm) (LandmarkData.nome lm)
                (LandmarkData.x lm) (LandmarkData.y lm)
                (LandmarkData.z lm) (LandmarkData.visibility lm) ts.
Proof.
  split; [apply linhas_para_db_length|].
  intros n l. apply linhas_para_db_lookup.
Qed.

Lemma transformar_e_carregar_lido w v caminho db dados :
  caminho ≠ "" →
  arquivos w !! caminho = Some (ArqJson dados) →
  transformar_e_carregar isoformat v (Some caminho) db w =
    let w0 := com_relogio (S (relogio w))
                (com_log (log w ++ [(INFO, Processando v)]) w) in
    match linhas_para_db v dados (isoformat (relogio w)) with
    | [] => logging WARNING NenhumaLinha w0
    | l :: ls => carregar db (l :: ls) w0
    end.
Proof.
  intros Hne Harq. unfold transformar_e_carregar.
  destruct caminho as [|c caminho]; [done|].
  unfold bind, logging, json_load, utcnow_isoformat. simpl.
  rewrite Harq. simpl.
  destruct (linhas_para_db v dados (isoformat (relogio w))); reflexivity.
Qed.

Lemma linhas_para_db_data v dados ts l :
  l ∈ linhas_para_db v dados ts → Linha.data_processamento l = ts.
Proof.
  intros (n & Hn)%list_elem_of_lookup.
  apply linhas_para_db_lookup in Hn as (i & fd & j & lm & _ & _ & _ & ->).
  reflexivity.
Qed.

(** C4. One call of [transformar_e_carregar] that gets to read its
    artifact reads the clock exactly once; every row it builds carries that
    one reading, and so does every row it adds to the table. *)
Theorem data_processamento_unica_por_chamada w v caminho db dados :
  caminho ≠ "" →
  arquivos w !! caminho = Some (ArqJson dados) →
  let w' := (transformar_e_carregar isoformat v (Some caminho) db w).1 in
  let ts := isoformat (relogio w) in
  relogio w' = S (relogio w)
  ∧ (∀ l, l ∈ linhas_para_db v dados ts → Linha.data_processamento l = ts)
  ∧ (∀ t, banco_em w db = Banco (Some t) →
       ∃ t', banco_em w' db = Banco (Some t')
             ∧ ∀ l, l ∈ t' →
                 l ∈ t ∨ (l ∈ linhas_para_db v dados ts
                          ∧ Linha.data_processamento l = ts)).
Proof.
  intros Hne Harq w' ts. subst w'.
  rewrite (transformar_e_carregar_lido w v caminho db dados Hne Harq).
  fold ts. cbn zeta.
  set (w0 := com_relogio _ _).
  assert (∀ l, l ∈ linhas_para_db v dados ts → Linha.data_processamento l = ts)
    as Hts by (intros l; apply linhas_para_db_data).
  destruct (linhas_para_db v dados ts) as [|l0 ls] eqn:E.
  - split_and!; [done|done|]. intros t Ht. exists t. split; [done|]. by left.
  - assert (relogio (carregar db (l0 :: ls) w0).1 = S (relogio w)) as Hrel.
    { unfold carregar, sqlite3_connect.
      destruct (banco_em w0 db) as [|[t|]]; try done.
      destruct (executemany (l0 :: ls) t 0). done. }
    split_and!; [done|done|]. intros t Ht.
    assert (banco_em w0 db = Banco (Some t)) as Ht0 by exact Ht.
    rewrite (carregar_com_tabela w0 db (l0 :: ls) t Ht0). cbn [fst].
    eexists. split; [apply banco_em_insert|].
    intros l Hl.
    destruct (executemany_prefixo (l0 :: ls) t 0) as (novas & Hp & _ & Hsub).
    rewrite Hp in Hl. apply elem_of_app in Hl as [Hl|Hl]; [by left|right].
    split; [by apply Hsub|]. apply Hts. by apply Hsub.
Qed.

(** C8 (as the code has it). A call that reaches the table returns
    nothing; what it produces is one INFO record carrying
    [cursor.rowcount], the number of rows the call added.  That number is
    0 when every key was already stored and the number of rows given when
    they are all new and distinct; the number of rows ignored is never
    computed. *)
Theorem carga_registra_so_as_inseridas w v caminho db dados t :
  caminho ≠ "" →
  arquivos w !! caminho = Some (ArqJson dados) →
  linhas_para_db v dados (isoformat (relogio w)) ≠ [] →
  banco_em w db = Banco (Some t) →
  let linhas := linhas_para_db v dados (isoformat (relogio w)) in
  let w' := (transformar_e_carregar isoformat v (Some caminho) db w).1 in
  (transformar_e_carregar isoformat v (Some caminho) db w).2 = Ok tt
  ∧ ∃ novas,
      banco_em w' db = Banco (Some (t ++ novas))
      ∧ log w' = log w ++ [(INFO, Processando v); (INFO, Sucesso (length novas))]
      ∧ (length novas ≤ length linhas)%nat
      ∧ ((∀ l, l ∈ linhas → Linha.chave l ∈ chaves t) → novas = [])
      ∧ (NoDup (chaves linhas) →
         (∀ l, l ∈ linhas → Linha.chave l ∉ chaves t) → novas = linhas).
Proof.
  intros Hne Harq Hlin Ht linhas w'. subst w'.
  rewrite (transformar_e_carregar_lido w v caminho db dados Hne Harq).
  cbn zeta. fold linhas. fold linhas in Hlin.
  destruct linhas as [|l0 ls] eqn:E; [done|]. rewrite <- E. clear Hlin.
  set (w0 := com_relogio _ _).
  assert (banco_em w0 db = Banco (Some t)) as Ht0 by exact Ht.
  rewrite (carregar_com_tabela w0 db linhas t Ht0). cbn [fst snd].
  split; [done|].
  destruct (executemany_sublist linhas t 0) as (novas & Hp & Hsub).
  destruct (executemany_prefixo linhas t 0) as (novas' & Hp' & Hc & _).
  assert (novas' = novas) as -> by (rewrite Hp in Hp'; by apply app_inv_head in Hp').
  exists novas. split_and!.
  - rewrite banco_em_insert. by rewrite Hp.
  - simpl. rewrite Hc, <- app_assoc. done.
  - by apply sublist_length.
  - intros Hall. pose proof (executemany_tudo_ignorado linhas t 0 Hall) as Hi.
    rewrite Hi in Hp. simpl in Hp.
    rewrite <- (app_nil_r t) in Hp at 1. by apply app_inv_head in Hp.
  - intros Hnd Hnew. pose proof (executemany_todas_novas linhas t 0 Hnd Hnew) as Hi.
    rewrite Hi in Hp. simpl in Hp. by apply app_inv_head in Hp.
Qed.

End TransformFacts.

(** ** Capture *)

Section CaptureFacts.
Context {Image Pose : Type}.
Variable process : Pose → Image → Pose * option (list NormalizedLandmark.t).
Variable PoseLandmark_name : Z → option string.
Implicit Types w : Mundo Image Pose.

Local Abbreviation laco := (laco_frames process PoseLandmark_name).
Local Abbreviation extrair := (extrair_keypoints process PoseLandmark_name).
Local Abbreviation enumerar := (enumerate_landmarks PoseLandmark_name).

(** The loop over the frames: the counter ends at the number of frames
    read, records are only appended, one for each frame with a detection
    and with that frame's position, in increasing order. *)
Lemma laco_frames_inv video_path cap : ∀ k acc w w' k' dados,
  laco video_path cap k acc w = (w', Ok (k', dados)) →
  k' = k + Z.of_nat (length cap)
  ∧ arquivos w' = arquivos w ∧ bancos w' = bancos w ∧ log w' = log w
  ∧ ∃ novos,
      dados = acc ++ novos
      ∧ StronglySorted Z.lt (FrameData.frame <$> novos)
      ∧ (∀ fd, fd ∈ novos →
           ∃ i ls, FrameData.frame fd = k + Z.of_nat i
                   ∧ deteccoes process (pose w) cap !! i = Some (Some ls)
                   ∧ enumerar 0 ls [] = Ok (FrameData.landmarks fd))
      ∧ (∀ i ls, deteccoes process (pose w) cap !! i = Some (Some ls) →
           k + Z.of_nat i ∈ FrameData.frame <$> novos).
Proof.
  induction cap as [|image cap IH]; intros k acc w w' k' dados H.
  - unfold laco_frames, bind, chamar, ret in H. simplify_eq/=.
    split_and!; [lia|done..|].
    exists []. rewrite app_nil_r. split_and!; [done|constructor| |].
    + intros fd Hfd. by apply elem_of_nil in Hfd.
    + intros i ls Hi. by rewrite lookup_nil in Hi.
  - simpl in H. unfold bind, chamar, pose_process, bind, chamar in H. simpl in H.
    destruct (process (pose w) image) as [p r] eqn:Hp. simpl in H.
    destruct r as [ls|].
    + destruct (enumerar 0 ls []) as [lds|e] eqn:Hls; [|done].
      apply IH in H as (-> & Ha & Hb & Hl & novos & -> & Hs & Hin & Hout).
      simpl in Ha, Hb, Hl, Hin, Hout. cbn [length].
      split_and!; [lia|done..|].
      exists (FrameData.mk k lds :: novos). rewrite <- app_assoc.
      split_and!; [done| | |].
      * csimpl. constructor; [done|]. apply Forall_forall. intros x Hx.
        apply list_elem_of_fmap in Hx as (fd & -> & Hfd).
        destruct (Hin fd Hfd) as (i & _ & -> & _). lia.
      * intros fd [->|Hfd]%elem_of_cons.
        -- exists 0%nat, ls. simpl. rewrite Hp. split_and!; [lia|done|done].
        -- destruct (Hin fd Hfd) as (i & ls' & Hf & Hd & He).
           exists (S i), ls'. simpl. rewrite Hp. split_and!; [lia|done|done].
      * intros i ls' Hi. simpl in Hi. rewrite Hp in Hi. csimpl.
        destruct i as [|i]; simpl in Hi.
        -- apply elem_of_cons. left. lia.
        -- apply elem_of_cons. right. replace (k + Z.of_nat (S i)) with (k + 1 + Z.of_nat i) by lia.
           by apply (Hout i ls').
    + apply IH in H as (-> & Ha & Hb & Hl & novos & -> & Hs & Hin & Hout).
      simpl in Ha, Hb, Hl, Hin, Hout. cbn [length].
      split_and!; [lia|done..|].
      exists novos. split_and!; [done|done| |].
      * intros fd Hfd. destruct (Hin fd Hfd) as (i & ls' & Hf & Hd & He).
        exists (S i), ls'. simpl. rewrite Hp. split_and!; [lia|done|done].
      * intros i ls' Hi. simpl in Hi. rewrite Hp in Hi.
        destruct i as [|i]; simpl in Hi; [done|].
        replace (k + Z.of_nat (S i)) with (k + 1 + Z.of_nat i) by lia.
        by apply (Hout i ls').
Qed.

Lemma extrair_keypoints_nao_abre w video_path out :
  videos w !! video_path = None →
  extrair video_path out w =
    (com_log (log (apos_abrir video_path w)
                ++ [(ERROR, NaoFoiPossivelAbrir video_path)])
       (apos_abrir video_path w),
     Ok RetNone).
Proof.
  intros H. unfold extrair_keypoints, cv2_VideoCapture, bind, logging, chamar.
  simpl. rewrite H. reflexivity.
Qed.

Lemma extrair_keypoints_abre w video_path out frames :
  videos w !! video_path = Some frames →
  extrair video_path out w =
    match laco video_path frames 0 [] (apos_abrir video_path w) with
    | (w3, Raise e) => (w3, Raise e)
    | (w3, Ok (frame_count, dados_brutos)) =>
        let w4 := com_chamadas (chamadas w3 ++ [CRelease video_path]) w3 in
        let video_nome := os_path_basename video_path in
        match dados_brutos with
        | _ :: _ =>
            match out with
            | EmptyString => (w4, Raise FileNotFoundError)
            | String _ _ =>
                let json_output_path := os_path_join out (video_nome +:+ ".json") in
                let w5 := executar_passos
                            (salvar_json_passos json_output_path dados_brutos) w4 in
                (com_log (log w5 ++ [(INFO, ExtracaoConcluida frame_count)]) w5,
                 Ok (RetTupla (Some video_nome) (Some json_output_path)))
            end
        | [] =>
            (com_log (log w4 ++ [(WARNING, NenhumaPose video_nome)]) w4,
             Ok (RetTupla None None))
        end
    end.
Proof.
  intros H. unfold extrair_keypoints, cv2_VideoCapture, bind, logging, chamar.
  simpl. rewrite H. fold (apos_abrir video_path w).
  destruct (laco video_path frames 0 [] (apos_abrir video_path w))
    as [w3 [[k dados]|e]]; [|done].
  destruct dados; [reflexivity|]. destruct out; reflexivity.
Qed.

(** As long as the detector never answers with more landmarks than
    [PoseLandmark] has members and the output directory has a name, the
    capture of a readable video returns a pair. *)
Lemma enumerate_landmarks_total ls : ∀ idx acc,
  (∀ j, idx ≤ j < idx + Z.of_nat (length ls) → is_Some (PoseLandmark_name j)) →
  ∃ lds, enumerar idx ls acc = Ok lds.
Proof.
  induction ls as [|l ls IH]; intros idx acc H; simpl; [by eexists|].
  destruct (H idx) as [nome ->]; [cbn [length]; lia|].
  apply IH. intros j Hj. apply H. cbn [length]. lia.
Qed.

Lemma laco_frames_total video_path cap : ∀ k acc w,
  (∀ i ls, deteccoes process (pose w) cap !! i = Some (Some ls) →
     ∀ j, 0 ≤ j < Z.of_nat (length ls) → is_Some (PoseLandmark_name j)) →
  ∃ w' k' dados, laco video_path cap k acc w = (w', Ok (k', dados)).
Proof.
  induction cap as [|image cap IH]; intros k acc w H.
  - unfold laco_frames, bind, chamar, ret. by eexists _, _, _.
  - simpl. unfold bind, chamar, pose_process, bind, chamar. simpl.
    simpl in H. destruct (process (pose w) image) as [p r] eqn:Hp. simpl.
    assert (∀ i ls, deteccoes process p cap !! i = Some (Some ls) →
              ∀ j, 0 ≤ j < Z.of_nat (length ls) → is_Some (PoseLandmark_name j))
      as H' by (intros i ls Hi; apply (H (S i) ls Hi)).
    destruct r as [ls|]; [|by apply IH].
    destruct (enumerate_landmarks_total ls 0 []) as [lds ->];
      [intros j Hj; apply (H 0%nat ls eq_refl); lia|].
    by apply IH.
Qed.

Lemma extrair_keypoints_retorna w video_path out frames :
  videos w !! video_path = Some frames →
  out ≠ "" →
  (∀ i ls, deteccoes process (pose w) frames !! i = Some (Some ls) →
     ∀ j, 0 ≤ j < Z.of_nat (length ls) → is_Some (PoseLandmark_name j)) →
  ∃ w' video_nome json_path,
    extrair video_path out w = (w', Ok (RetTupla video_nome json_path)).
Proof.
  intros Hv Hout H. rewrite (extrair_keypoints_abre w video_path out frames Hv).
  destruct (laco_frames_total video_path frames 0 [] (apos_abrir video_path w) H)
    as (w3 & k & dados & ->).
  destruct dados; [by eexists _, _, _|].
  destruct out; [done|]. by eexists _, _, _.
Qed.

(** C5. When [extrair_keypoints] produces a capture, the artifact holds
    one record for each frame on which the detector answered and none for
    the others; the records carry the frames' positions counted from 0, in
    strictly increasing order, and the counter reported at the end is the
    number of frames read, skipped ones included. *)
Theorem captura_esparsa_e_crescente w video_path out frames w' v jp :
  videos w !! video_path = Some frames →
  extrair video_path out w = (w', Ok (RetTupla (Some v) (Some jp))) →
  ∃ dados,
    arquivos w' !! jp = Some (ArqJson dados)
    ∧ StronglySorted Z.lt (FrameData.frame <$> dados)
    ∧ (∀ i : nat,
         Z.of_nat i ∈ FrameData.frame <$> dados ↔
         ∃ ls, deteccoes process (pose w) frames !! i = Some (Some ls))
    ∧ (∀ fd, fd ∈ dados →
         ∃ i : nat, FrameData.frame fd = Z.of_nat i ∧ (i < length frames)%nat)
    ∧ last (log w') = Some (INFO, ExtracaoConcluida (Z.of_nat (length frames))).
Proof.
  intros Hv H. rewrite (extrair_keypoints_abre w video_path out frames Hv) in H.
  destruct (laco video_path frames 0 [] (apos_abrir video_path w))
    as [w3 [[k dados]|e]] eqn:Hl; [|done].
  apply laco_frames_inv in Hl
    as (-> & _ & _ & _ & novos & -> & Hs & Hin & Hout).
  simpl in Hin, Hout, H. destruct novos as [|fd0 novos]; [by inversion H|].
  destruct out as [|c out]; [by inversion H|].
  inversion H; subst; clear H. exists (fd0 :: novos). split_and!.
  - simpl. apply lookup_insert_eq.
  - done.
  - intros i. split.
    + intros (fd & Hf & Hfd)%list_elem_of_fmap.
      destruct (Hin fd Hfd) as (i' & ls & Hf' & Hd & _).
      exists ls. replace i with i' by lia. done.
    + intros (ls & Hd). apply (Hout i ls Hd).
  - intros fd Hfd. destruct (Hin fd Hfd) as (i & ls & Hf & Hd & _).
    exists i. split; [lia|].
    apply lookup_lt_Some in Hd.
    enough (∀ p, length (deteccoes process p frames) = length frames) as E
      by (by rewrite E in Hd).
    clear. induction frames as [|im fr IH]; intros p; simpl; [done|].
    destruct (process p im). simpl. by rewrite IH.
  - simpl. rewrite last_snoc. repeat f_equal; lia.
Qed.

(** C7 (as the code has it). A successful capture writes its artifact in
    place: the file is opened for writing under its final name, which
    creates or empties it, and then the document is dumped.  No other path
    is touched on the way, so there is no temporary file and no rename;
    between the two steps the final name holds an empty file, and after
    them the complete capture. *)
Theorem artefato_gravado_no_lugar w video_path out frames w' v jp :
  videos w !! video_path = Some frames →
  extrair video_path out w = (w', Ok (RetTupla (Some v) (Some jp))) →
  jp = os_path_join out (os_path_basename video_path +:+ ".json")
  ∧ ∃ w4 dados,
      arquivos w4 = arquivos w
      ∧ arquivos w' = arquivos (executar_passos (salvar_json_passos jp dados) w4)
      ∧ arquivos w' !! jp = Some (ArqJson dados)
      ∧ ∀ n, let wn := executar_passos (take n (salvar_json_passos jp dados)) w4 in
          (∀ p, p ≠ jp → arquivos wn !! p = arquivos w !! p)
          ∧ arquivos wn !! jp =
              match n with
              | 0%nat => arquivos w !! jp
              | 1%nat => Some ArqVazio
              | _ => Some (ArqJson dados)
              end.
Proof.
  intros Hv H. rewrite (extrair_keypoints_abre w video_path out frames Hv) in H.
  destruct (laco video_path frames 0 [] (apos_abrir video_path w))
    as [w3 [[k dados]|e]] eqn:Hl; [|done].
  apply laco_frames_inv in Hl as (_ & Ha & _).
  destruct dados as [|fd dados]; [by inversion H|].
  destruct out as [|c out]; [by inversion H|].
  cbn zeta in H. inversion H; subst; clear H. split; [done|].
  set (jp := os_path_join (String c out) (os_path_basename video_path +:+ ".json")).
  exists (com_chamadas (chamadas w3 ++ [CRelease video_path]) w3), (fd :: dados).
  split_and!; [done|done|simpl; apply lookup_insert_eq|].
  intros n. destruct n as [|[|n]]; simpl.
  - by rewrite Ha.
  - split; [|apply lookup_insert_eq].
    intros p Hp. by rewrite lookup_insert_ne, Ha.
  - rewrite take_nil. simpl. split; [|apply lookup_insert_eq].
    intros p Hp. by rewrite !lookup_insert_ne, Ha.
Qed.

End CaptureFacts.

(** ** Footprints: what each stage may touch *)

Section Footprints.
Context {Image Pose : Type}.
Variable process : Pose → Image → Pose * option (list NormalizedLandmark.t).
Variable PoseLandmark_name : Z → option string.
Variable isoformat : nat → string.
Implicit Types w : Mundo Image Pose.
Import Sqlite.

Local Abbreviation laco := (laco_frames process PoseLandmark_name).
Local Abbreviation extrair := (extrair_keypoints process PoseLandmark_name).
Local Abbreviation tec := (transformar_e_carregar isoformat).

Lemma tentativas_app (cs1 cs2 : list Chamada) :
  tentativas (cs1 ++ cs2) = tentativas cs1 ++ tentativas cs2.
Proof. unfold tentativas. apply omap_app. Qed.

(** The frame loop only reads frames and runs the detector, whatever its
    outcome. *)
Lemma laco_frames_efeitos video_path cap : ∀ k acc w w' r,
  laco video_path cap k acc w = (w', r) →
  entradas w' = entradas w ∧ videos w' = videos w
  ∧ arquivos w' = arquivos w ∧ bancos w' = bancos w
  ∧ relogio w' = relogio w ∧ log w' = log w
  ∧ ∃ cs, chamadas w' = chamadas w ++ cs ∧ tentativas cs = [].
Proof.
  induction cap as [|image cap IH]; intros k acc w w' r H.
  - unfold laco_frames, bind, chamar, ret in H. simplify_eq/=.
    split_and!; try done. by exists [CRead video_path].
  - simpl in H. unfold bind, chamar, pose_process, bind, chamar in H. simpl in H.
    destruct (process (pose w) image) as [p o] eqn:Hp. simpl in H.
    assert (∀ dados', laco video_path cap (k + 1) dados'
              (com_pose p (com_chamadas ((chamadas w ++ [CRead video_path]) ++ [CProcess])
                 (com_chamadas (chamadas w ++ [CRead video_path]) w))) = (w', r) →
            entradas w' = entradas w ∧ videos w' = videos w
            ∧ arquivos w' = arquivos w ∧ bancos w' = bancos w
            ∧ relogio w' = relogio w ∧ log w' = log w
            ∧ ∃ cs, chamadas w' = chamadas w ++ cs ∧ tentativas cs = []) as Hrec.
    { intros dados' H'. apply IH in H' as (? & ? & ? & ? & ? & ? & cs & Hc & Ht).
      simpl in *. split_and!; try done.
      exists (CRead video_path :: CProcess :: cs).
      rewrite Hc, <- !app_assoc. done. }
    destruct o as [ls|]; [|by apply Hrec in H].
    destruct (enumerate_landmarks PoseLandmark_name 0 ls []) as [lds|e];
      [by apply Hrec in H|].
    simplify_eq/=. split_and!; try done.
    exists [CRead video_path; CProcess]. by rewrite <- app_assoc.
Qed.

(** [extrair_keypoints] opens its video once, and may write one file: the
    artifact named after the video. *)
Lemma extrair_keypoints_efeitos video_path out w w' r :
  extrair video_path out w = (w', r) →
  entradas w' = entradas w ∧ videos w' = videos w
  ∧ bancos w' = bancos w ∧ relogio w' = relogio w
  ∧ (∃ cs, chamadas w' = chamadas w ++ CVideoCapture video_path :: cs
           ∧ tentativas cs = [])
  ∧ (∀ p, p ≠ os_path_join out (os_path_basename video_path +:+ ".json") →
       arquivos w' !! p = arquivos w !! p)
  ∧ (∀ v jp, r = Ok (RetTupla (Some v) jp) → v = os_path_basename video_path).
Proof.
  intros H. destruct (videos w !! video_path) as [frames|] eqn:Hv.
  - rewrite (extrair_keypoints_abre _ _ w video_path out frames Hv) in H.
    destruct (laco video_path frames 0 [] (apos_abrir video_path w))
      as [w3 r3] eqn:Hl.
    apply laco_frames_efeitos in Hl as (? & ? & Ha & ? & ? & ? & cs & Hc & Ht).
    simpl in *. destruct r3 as [[k dados]|e].
    + destruct dados as [|fd dados]; [|destruct out as [|c out]]; simplify_eq/=.
      * split_and!; try done.
        -- exists (cs ++ [CRelease video_path]).
           rewrite Hc, <- !app_assoc. split; [done|].
           rewrite tentativas_app, Ht. done.
        -- intros p _. by rewrite Ha.
      * split_and!; try done.
        -- exists (cs ++ [CRelease video_path]).
           rewrite Hc, <- !app_assoc. split; [done|].
           rewrite tentativas_app, Ht. done.
        -- intros p _. by rewrite Ha.
      * split_and!; try done.
        -- exists (cs ++ [CRelease video_path]).
           rewrite Hc, <- !app_assoc. split; [done|].
           rewrite tentativas_app, Ht. done.
        -- intros p Hp. by rewrite !lookup_insert_ne, Ha by done.
        -- intros v jp Hr. by simplify_eq.
    + simplify_eq/=. split_and!; try done.
      * exists cs. by rewrite Hc, <- !app_assoc.
      * intros p _. by rewrite Ha.
  - rewrite (extrair_keypoints_nao_abre _ _ w video_path out Hv) in H.
    simplify_eq/=. split_and!; try done. by exists [].
Qed.

Lemma linhas_para_db_video_nome v dados ts l :
  l ∈ linhas_para_db v dados ts → Linha.video_nome l = v.
Proof.
  intros (n & Hn)%list_elem_of_lookup.
  apply linhas_para_db_lookup in Hn as (i & fd & j & lm & _ & _ & _ & ->).
  reflexivity.
Qed.

Lemma carregar_efeitos db_path linhas v w w' r :
  (∀ l, l ∈ linhas → Linha.video_nome l = v) →
  carregar db_path linhas w = (w', r) →
  entradas w' = entradas w ∧ videos w' = videos w
  ∧ arquivos w' = arquivos w ∧ chamadas w' = chamadas w
  ∧ relogio w' = relogio w
  ∧ (∀ db, db ≠ db_path → bancos w' !! db = bancos w !! db)
  ∧ so_acrescenta v db_path w w'.
Proof.
  intros Hv H. destruct (banco_em w db_path) as [|[t|]] eqn:Hb.
  - unfold carregar, sqlite3_connect in H. rewrite Hb in H. simplify_eq/=.
    split_and!; try done. by left.
  - rewrite (carregar_com_tabela w db_path linhas t Hb) in H. simplify_eq/=.
    split_and!; try done.
    + intros db Hdb. by rewrite lookup_insert_ne.
    + right. destruct (executemany_prefixo linhas t 0) as (novas & Hp & _ & Hsub).
      exists t, novas. split_and!; [done| |].
      * unfold banco_em. simpl. by rewrite lookup_insert_eq, Hp.
      * intros l Hl. apply Hv. by apply Hsub.
  - unfold carregar, sqlite3_connect in H. rewrite Hb in H. simplify_eq/=.
    split_and!; try done. by left.
Qed.

Lemma transformar_e_carregar_efeitos v json_path db_path w w' r :
  tec v json_path db_path w = (w', r) →
  entradas w' = entradas w ∧ videos w' = videos w
  ∧ arquivos w' = arquivos w ∧ chamadas w' = chamadas w
  ∧ (∀ db, db ≠ db_path → bancos w' !! db = bancos w !! db)
  ∧ so_acrescenta v db_path w w'.
Proof.
  intros H. destruct json_path as [[|c caminho]|];
    [unfold transformar_e_carregar, ret in H; simplify_eq;
     split_and!; try done; by left| |
     unfold transformar_e_carregar, ret in H; simplify_eq;
     split_and!; try done; by left].
  destruct (arquivos w !! String c caminho) as [[|dados]|] eqn:Ha.
  - unfold transformar_e_carregar, bind, logging, json_load in H. simpl in H.
    rewrite Ha in H. simplify_eq/=. split_and!; try done. by left.
  - rewrite (transformar_e_carregar_lido isoformat w v _ db_path dados) in H
      by done.
    cbn zeta in H.
    pose proof (linhas_para_db_video_nome v dados (isoformat (relogio w))) as Hv.
    destruct (linhas_para_db v dados (isoformat (relogio w))) as [|l0 ls].
    + unfold logging in H. simplify_eq/=. split_and!; try done. by left.
    + apply (carregar_efeitos _ _ v) in H as (? & ? & ? & ? & ? & ? & Hs); [|done].
      simpl in *. split_and!; try done.
  - unfold transformar_e_carregar, bind, logging, json_load in H. simpl in H.
    rewrite Ha in H. simplify_eq/=. split_and!; try done. by left.
Qed.

Lemma so_acrescenta_linhas v db_path w w' :
  so_acrescenta v db_path w w' →
  ∃ novas, linhas_em w' db_path = linhas_em w db_path ++ novas
           ∧ ∀ l, l ∈ novas → Linha.video_nome l = v.
Proof.
  unfold linhas_em. intros [->|(t & novas & -> & -> & H)].
  - exists []. rewrite app_nil_r. split; [done|]. by intros l ?%elem_of_nil.
  - by exists novas.
Qed.

Lemma efeitos_de_nil w : efeitos_de [] w w.
Proof.
  unfold efeitos_de. rewrite app_nil_r. split_and!; try done.
  exists []. rewrite app_nil_r. split; [done|]. by intros l ?%elem_of_nil.
Qed.

Lemma efeitos_de_log vs w w' l :
  efeitos_de vs w w' → efeitos_de vs w (com_log l w').
Proof. done. Qed.

Lemma efeitos_de_trans vs1 vs2 w w1 w2 :
  efeitos_de vs1 w w1 → efeitos_de vs2 w1 w2 → efeitos_de (vs1 ++ vs2) w w2.
Proof.
  intros (He1 & Hv1 & Ht1 & Ha1 & Hb1 & n1 & Hn1 & Hl1)
         (He2 & Hv2 & Ht2 & Ha2 & Hb2 & n2 & Hn2 & Hl2).
  unfold efeitos_de. split_and!.
  - congruence.
  - congruence.
  - by rewrite Ht2, Ht1, app_assoc.
  - intros p Hp. rewrite Ha2, Ha1; [done| |];
      intros v Hv; apply Hp, elem_of_app; auto.
  - intros db Hdb. by rewrite Hb2, Hb1.
  - exists (n1 ++ n2). rewrite Hn2, Hn1, app_assoc. split; [done|].
    intros l [Hl|Hl]%elem_of_app.
    + destruct (Hl1 l Hl) as (v & Hv & E). exists v. split; [|done].
      apply elem_of_app. by left.
    + destruct (Hl2 l Hl) as (v & Hv & E). exists v. split; [|done].
      apply elem_of_app. by right.
Qed.

Local Abbreviation processar := (processar_video process PoseLandmark_name isoformat).
Local Abbreviation laco_v := (laco_videos process PoseLandmark_name isoformat).

Lemma processar_video_efeitos video_path w w' r :
  processar video_path w = (w', r) → efeitos_de [video_path] w w'.
Proof.
  unfold processar_video, bind. intros H.
  destruct (extrair video_path KEYPOINTS_OUTPUT_DIR w) as [w1 r1] eqn:He.
  apply extrair_keypoints_efeitos in He
    as (He & Hv & Hb & _ & (cs & Hc & Ht) & Ha & Hn).
  assert (efeitos_de [video_path] w w1) as H1.
  { unfold efeitos_de. split_and!; try done.
    - rewrite Hc, tentativas_app. simpl. by rewrite Ht.
    - intros p Hp. apply Ha. apply Hp. by left.
    - intros db _. by rewrite Hb.
    - exists []. rewrite app_nil_r. unfold linhas_em, banco_em. rewrite Hb.
      split; [done|]. by intros l ?%elem_of_nil. }
  destruct r1 as [[|[nome|] jp]|e];
    try (by unfold raise, ret in H; simplify_eq/=).
  destruct (verdadeiro (Some nome)); [|by unfold ret in H; simplify_eq/=].
  rewrite (Hn nome jp eq_refl) in H.
  apply transformar_e_carregar_efeitos in H as (He2 & Hv2 & Ha2 & Hc2 & Hb2 & Hs).
  destruct H1 as (_ & _ & Ht1 & Ha1 & Hb1 & n1 & Hn1 & Hl1).
  unfold efeitos_de. split_and!.
  - congruence.
  - congruence.
  - by rewrite Hc2.
  - intros p Hp. rewrite Ha2. by apply Ha1.
  - intros db Hdb. rewrite Hb2 by done. by apply Hb1.
  - apply so_acrescenta_linhas in Hs as (novas & Hn' & Hl).
    exists (n1 ++ novas). rewrite Hn', Hn1, app_assoc. split; [done|].
    intros l [Hl'|Hl']%elem_of_app; [by apply Hl1|].
    exists video_path. split; [by left|]. by apply Hl.
Qed.

(** The loop of [main] never stops early: it ends normally, having
    processed every video. *)
Lemma laco_videos_efeitos vs : ∀ w,
  ∃ w', laco_v vs w = (w', Ok tt) ∧ efeitos_de vs w w'.
Proof.
  induction vs as [|video_path vs IH]; intros w.
  - exists w. split; [done|apply efeitos_de_nil].
  - simpl. unfold bind, try_except_Exception.
    destruct (processar video_path w) as [w1 [[]|e]] eqn:Hp;
      apply processar_video_efeitos in Hp.
    + destruct (IH w1) as (w' & -> & Hw'). exists w'. split; [done|].
      by apply (efeitos_de_trans [video_path] vs w w1 w').
    + simpl.
      destruct (IH (com_log (log w1 ++ [(ERROR, Falha video_path e)]) w1))
        as (w' & -> & Hw').
      exists w'. split; [done|].
      apply (efeitos_de_trans [video_path] vs w
               (com_log (log w1 ++ [(ERROR, Falha video_path e)]) w1) w');
        [|done].
      by apply efeitos_de_log.
Qed.

End Footprints.

(** ** The orchestrator *)

Section MainFacts.
Context {Image Pose : Type}.
Variable process : Pose → Image → Pose * option (list NormalizedLandmark.t).
Variable PoseLandmark_name : Z → option string.
Variable isoformat : nat → string.
Implicit Types w : Mundo Image Pose.
Import Sqlite.

Local Abbreviation extrair := (extrair_keypoints process PoseLandmark_name).
Local Abbreviation processar := (processar_video process PoseLandmark_name isoformat).
Local Abbreviation laco_v := (laco_videos process PoseLandmark_name isoformat).
Local Abbreviation principal := (main process PoseLandmark_name isoformat).

(** One turn of the loop of [main]. *)
Lemma laco_videos_passo video_path resto w :
  laco_v (video_path :: resto) w =
    match processar video_path w with
    | (w1, Ok _) => laco_v resto w1
    | (w1, Raise e) =>
        laco_v resto (com_log (log w1 ++ [(ERROR, Falha video_path e)]) w1)
    end.
Proof.
  simpl. unfold bind, try_except_Exception, logging.
  by destruct (processar video_path w) as [w1 [[]|e]].
Qed.

Lemma extrair_keypoints_RetNone w video_path out :
  (extrair video_path out w).2 = Ok RetNone ↔ videos w !! video_path = None.
Proof.
  split.
  - intros H. destruct (videos w !! video_path) as [frames|] eqn:Hv; [|done].
    rewrite (extrair_keypoints_abre _ _ w video_path out frames Hv) in H.
    destruct (laco_frames _ _ _ _ _ _ _) as [w3 [[k [|fd dados]]|e]]; try done.
    by destruct out.
  - intros Hv. by rewrite (extrair_keypoints_nao_abre _ _ w video_path out Hv).
Qed.

(** C6. A video that cannot be opened makes [extrair_keypoints] return
    [None], the outcome it has in no other case.  Nothing else is done for
    that video: the only call made is the attempt to open it (no frame is
    read, the detector is not run), no file and no database changes, and
    the log gains the error naming the video as impossible to open and the
    failure recorded by [main], after which the loop goes on with the
    remaining videos. *)
Theorem video_ilegivel_falha_sem_efeitos w video_path resto :
  videos w !! video_path = None →
  (∀ out w0, (extrair video_path out w0).2 = Ok RetNone
             ↔ videos w0 !! video_path = None)
  ∧ ∃ w1,
      laco_v (video_path :: resto) w = laco_v resto w1
      ∧ chamadas w1 = chamadas w ++ [CVideoCapture video_path]
      ∧ arquivos w1 = arquivos w ∧ bancos w1 = bancos w
      ∧ pose w1 = pose w ∧ relogio w1 = relogio w
      ∧ log w1 = log w ++ [(INFO, Extraindo (os_path_basename video_path));
                           (ERROR, NaoFoiPossivelAbrir video_path);
                           (ERROR, Falha video_path TypeError)].
Proof.
  intros Hv. split; [intros out w0; apply extrair_keypoints_RetNone|].
  rewrite laco_videos_passo. unfold processar_video, bind.
  rewrite (extrair_keypoints_nao_abre _ _ w video_path _ Hv).
  unfold raise. eexists. split; [reflexivity|].
  simpl. split_and!; try done. by rewrite <- !app_assoc.
Qed.

(** DATABASE_DIR, the directory of DB_FILE, has a name. *)
Lemma os_makedirs_dirname_DB_FILE :
  os_makedirs (os_path_dirname DB_FILE) = (ret tt : M Image Pose unit).
Proof. reflexivity. Qed.

Lemma setup_database_efeitos w t :
  banco_em w DB_FILE = Banco t →
  ∃ w1, setup_database DB_FILE w = (w1, Ok tt)
        ∧ efeitos_de [] w w1
        ∧ banco_em w1 DB_FILE = Banco (Some (create_table_if_not_exists t)).
Proof.
  intros Hb. unfold setup_database. rewrite os_makedirs_dirname_DB_FILE.
  unfold bind, ret, logging, sqlite3_connect.
  change (banco_em (com_log _ w) DB_FILE) with (banco_em w DB_FILE).
  rewrite Hb. eexists. split; [reflexivity|]. split.
  - unfold efeitos_de. rewrite app_nil_r. split_and!; try done.
    + intros db Hdb. simpl. by rewrite lookup_insert_ne.
    + exists []. rewrite app_nil_r. split; [|by intros l ?%elem_of_nil].
      unfold linhas_em, banco_em. simpl. rewrite lookup_insert_eq. simpl.
      fold (banco_em w DB_FILE). rewrite Hb. by destruct t.
  - unfold banco_em. simpl. by rewrite lookup_insert_eq.
Qed.

Lemma main_com_banco w t :
  banco_em w DB_FILE = Banco t →
  ∃ w', principal w = (w', Ok tt)
        ∧ efeitos_de (glob_mp4 VIDEO_INPUT_DIR (entradas w)) w w'.
Proof.
  intros Hb.
  assert (banco_em (com_log (log w ++ [(INFO, Iniciando)]) w) DB_FILE = Banco t)
    as Hb0 by exact Hb.
  destruct (setup_database_efeitos _ t Hb0) as (w1 & Hs & He1 & _).
  unfold main, bind, glob_videos. unfold logging at 1. cbn beta iota.
  rewrite Hs. cbn beta iota.
  assert (entradas w1 = entradas w) as Hent by apply He1.
  rewrite Hent.
  assert (efeitos_de [] w w1) as Hw1 by exact He1.
  destruct (glob_mp4 VIDEO_INPUT_DIR (entradas w)) as [|v vs] eqn:Hg.
  - unfold logging. eexists. split; [reflexivity|]. by apply efeitos_de_log.
  - unfold logging at 1. cbn beta iota.
    set (w2 := com_log _ w1).
    destruct (laco_videos_efeitos process PoseLandmark_name isoformat (v :: vs) w2)
      as (w3 & -> & He3).
    unfold logging. eexists. split; [reflexivity|].
    apply efeitos_de_log.
    apply (efeitos_de_trans [] (v :: vs) w w2 w3); [|done].
    by apply efeitos_de_log.
Qed.

(** A run either stops in [setup_database], before any video, or goes
    through every video found. *)
Lemma main_efeitos w :
  match banco_em w DB_FILE with
  | Inacessivel =>
      (principal w).2 = Raise OperationalError ∧ efeitos_de [] w (principal w).1
  | Banco _ =>
      (principal w).2 = Ok tt
      ∧ efeitos_de (glob_mp4 VIDEO_INPUT_DIR (entradas w)) w (principal w).1
  end.
Proof.
  destruct (banco_em w DB_FILE) as [|t] eqn:Hb.
  - unfold main, setup_database. rewrite os_makedirs_dirname_DB_FILE.
    unfold bind, ret, logging, sqlite3_connect.
    change (banco_em (com_log _ (com_log _ w)) DB_FILE) with (banco_em w DB_FILE).
    rewrite Hb. simpl. split; [done|].
    do 2 apply efeitos_de_log. apply efeitos_de_nil.
  - destruct (main_com_banco w t Hb) as (w' & -> & He). done.
Qed.

(** C9. A run that gets past [setup_database] tries every video found, in
    order, whatever happens to each of them: the loop always ends normally,
    an exception raised for one video is logged as that video's failure and
    the loop goes on.  Only a failure of [setup_database], before any video,
    stops the run. *)
Theorem falha_de_um_video_nao_aborta w :
  (∀ vs w0, ∃ w1,
      laco_v vs w0 = (w1, Ok tt)
      ∧ tentativas (chamadas w1) = tentativas (chamadas w0) ++ vs)
  ∧ (∀ video_path resto w0 w1 e,
       processar video_path w0 = (w1, Raise e) →
       laco_v (video_path :: resto) w0
       = laco_v resto (com_log (log w1 ++ [(ERROR, Falha video_path e)]) w1))
  ∧ match banco_em w DB_FILE with
    | Inacessivel =>
        (principal w).2 = Raise OperationalError
        ∧ tentativas (chamadas (principal w).1) = tentativas (chamadas w)
    | Banco _ =>
        (principal w).2 = Ok tt
        ∧ tentativas (chamadas (principal w).1)
          = tentativas (chamadas w) ++ glob_mp4 VIDEO_INPUT_DIR (entradas w)
    end.
Proof.
  split_and!.
  - intros vs w0.
    destruct (laco_videos_efeitos process PoseLandmark_name isoformat vs w0)
      as (w1 & Hl & _ & _ & Ht & _).
    by exists w1.
  - intros video_path resto w0 w1 e Hp. by rewrite laco_videos_passo, Hp.
  - pose proof (main_efeitos w) as H.
    destruct (banco_em w DB_FILE); destruct H as (Hr & _ & _ & Ht & _);
      (split; [done|]); [by rewrite Ht, app_nil_r|done].
Qed.

Lemma endswith_iff s suf : endswith s suf = true ↔ ∃ pre, s = pre +:+ suf.
Proof.
  split.
  - induction s as [|c s IH]; cbn [endswith]; intros H.
    + rewrite orb_false_r in H. apply bool_decide_eq_true in H. by exists "".
    + apply orb_true_iff in H as [H|H].
      * apply bool_decide_eq_true in H. by exists "".
      * destruct (IH H) as [pre ->]. by exists (String c pre).
  - intros [pre ->]. apply endswith_app, endswith_refl.
Qed.

(** What the pattern "*.mp4" matches, said without [glob_casa_mp4]: the
    names that do not start with a dot and are some text followed by
    ".mp4". *)
Lemma glob_casa_mp4_iff nome :
  glob_casa_mp4 nome = true ↔
  (∀ resto, nome ≠ String "."%char resto) ∧ ∃ pre, nome = pre +:+ ".mp4".
Proof.
  unfold glob_casa_mp4. rewrite andb_true_iff, endswith_iff.
  apply and_iff_compat_r. split.
  - intros H resto ->. simpl in H. discriminate.
  - intros H. destruct nome as [|c resto]; [done|].
    destruct (decide (c = "."%char)) as [->|Hc]; [by destruct (H resto)|].
    destruct c as [[] [] [] [] [] [] [] []]; try reflexivity. by destruct Hc.
Qed.

(** C10. The work items of a run are exactly the entries of the input
    directory that the pattern "*.mp4" matches (the names that do not start
    with a dot and end in ".mp4", case-sensitively), in the order of the
    listing, and once the database is set up each of them is opened, once and
    in that order, and nothing else is.  An entry whose name does not end in
    ".mp4" (another container, or another case of the extension) is not
    matched, is not a work item, and the run leaves its artifact and the rows
    stored under its name as they were. *)
Theorem so_mp4_e_processado w :
  let vs := glob_mp4 VIDEO_INPUT_DIR (entradas w) in
  let w' := (principal w).1 in
  (∀ nome, glob_casa_mp4 nome = true ↔
           (∀ resto, nome ≠ String "."%char resto) ∧ ∃ pre, nome = pre +:+ ".mp4")
  ∧ vs = os_path_join VIDEO_INPUT_DIR
           <$> filter (λ n, glob_casa_mp4 n = true) (entradas w)
  ∧ (∀ p, p ∈ vs ↔
        (∃ nome, nome ∈ entradas w ∧ glob_casa_mp4 nome = true
                 ∧ p = os_path_join VIDEO_INPUT_DIR nome))
  ∧ (∃ abertos, tentativas (chamadas w') = tentativas (chamadas w) ++ abertos
                ∧ abertos ⊆ vs
                ∧ (∀ t, banco_em w DB_FILE = Sqlite.Banco t → abertos = vs))
  ∧ (∀ nome t, nome ∈ entradas w → glob_casa_mp4 nome = true →
       banco_em w DB_FILE = Sqlite.Banco t →
       os_path_join VIDEO_INPUT_DIR nome ∈ tentativas (chamadas w'))
  ∧ (∀ nome, endswith nome ".mp4" = false →
       glob_casa_mp4 nome = false
       ∧ (os_path_join VIDEO_INPUT_DIR nome ∉ vs)
       ∧ arquivos w' !! os_path_join KEYPOINTS_OUTPUT_DIR (nome +:+ ".json")
         = arquivos w !! os_path_join KEYPOINTS_OUTPUT_DIR (nome +:+ ".json")
       ∧ filter (λ l, Linha.video_nome l = nome) (linhas_em w' DB_FILE)
         = filter (λ l, Linha.video_nome l = nome) (linhas_em w DB_FILE)).
Proof.
  intros vs w'.
  assert (∃ us, us ⊆ vs ∧ efeitos_de us w w'
                ∧ ∀ t, banco_em w DB_FILE = Sqlite.Banco t → us = vs)
    as (us & Hus & He & Htodos).
  { pose proof (main_efeitos w) as H. subst w'.
    destruct (banco_em w DB_FILE); destruct H as [_ H].
    - exists []. split; [by intros x ?%elem_of_nil|]. split; [done|]. by intros t.
    - by exists vs. }
  destruct He as (_ & _ & Ht & Ha & _ & novas & Hn & Hl).
  assert (∀ nome, endswith nome ".mp4" = false →
                  os_path_join VIDEO_INPUT_DIR nome ∉ vs) as Hfora.
  { intros nome Hnome Hin. apply glob_mp4_endswith in Hin.
    by rewrite os_path_join_nao_mp4 in Hin. }
  split_and!; [apply glob_casa_mp4_iff|done|apply glob_mp4_elem_of|by exists us| |].
  { intros nome t Hin Hcasa Hb. rewrite Ht, (Htodos t Hb).
    apply elem_of_app. right. apply glob_mp4_elem_of. by exists nome. }
  intros nome Hnome. split_and!.
  - unfold glob_casa_mp4. rewrite Hnome. apply andb_false_r.
  - by apply Hfora.
  - apply Ha. intros v Hv. apply artefato_distinto; [done|].
    by apply (glob_mp4_endswith VIDEO_INPUT_DIR (entradas w)), Hus.
  - rewrite Hn, filter_app.
    destruct (filter (λ l, Linha.video_nome l = nome) novas) as [|l ls] eqn:Hf;
      [by rewrite app_nil_r|].
    exfalso.
    assert (l ∈ filter (λ l, Linha.video_nome l = nome) novas) as Hlf
      by (rewrite Hf; left).
    apply list_elem_of_filter in Hlf as [E Hlin].
    destruct (Hl l Hlin) as (v & Hv & Hb).
    apply Hus, glob_mp4_endswith in Hv.
    apply (basename_endswith v ".mp4" eq_refl) in Hv. congruence.
Qed.

End MainFacts.

(** ** The theorems on the concrete run *)

Section Instances.
Import Sqlite.

Local Abbreviation extrair_ex :=
  (extrair_keypoints Exemplo.process Exemplo.PoseLandmark_name).
Local Abbreviation tec_ex := (transformar_e_carregar Exemplo.isoformat).
Local Abbreviation main_ex :=
  (main Exemplo.process Exemplo.PoseLandmark_name Exemplo.isoformat).

Lemma carregar_idempotente_witness :
  banco_em Exemplo.mundo_pronto DB_FILE = Banco (Some [])
  ∧ let w1 := (carregar DB_FILE Exemplo.linhas_S Exemplo.mundo_pronto).1 in
    let w2 := (carregar DB_FILE Exemplo.linhas_S w1).1 in
    log w2 = log w1 ++ [(INFO, Sucesso 0)] ∧ bancos w2 = bancos w1.
Proof.
  split; [vm_compute; reflexivity|].
  destruct (carregar_idempotente Exemplo.mundo_pronto DB_FILE Exemplo.linhas_S [])
    as (_ & Hl & Hb & _); [vm_compute; reflexivity|].
  split; [exact Hl|exact Hb].
Defined.

Lemma chave_unica_em_todo_estado_witness :
  alcancavel (executemany Exemplo.linhas_S [] 0).1
  ∧ NoDup (chaves (executemany Exemplo.linhas_S [] 0).1).
Proof.
  assert (alcancavel (executemany Exemplo.linhas_S [] 0).1) as H
    by apply (alc_carga Exemplo.linhas_S [] alc_criada).
  split; [exact H|].
  exact (proj1 (chave_unica_em_todo_estado _ H)).
Defined.

Lemma linhas_para_db_uma_por_landmark_witness :
  length Exemplo.linhas_S = 4%nat
  ∧ Exemplo.linhas_S !! 3%nat
    = Some (Linha.mk "S.mp4" 2 1 "LEFT_EYE_INNER"
              0.625%float 0.125%float (-0.25)%float 0.75%float
              (Exemplo.isoformat 0)).
Proof.
  destruct (linhas_para_db_uma_por_landmark "S.mp4" Exemplo.dados_S
              (Exemplo.isoformat 0)) as [Hlen Hrows].
  split; [exact Hlen|].
  apply Hrows.
  exists 1%nat, (FrameData.mk 2
     [LandmarkData.mk 0 "NOSE" 0.5%float 0.25%float (-0.125)%float 0.875%float;
      LandmarkData.mk 1 "LEFT_EYE_INNER" 0.625%float 0.125%float (-0.25)%float 0.75%float]),
    1%nat,
    (LandmarkData.mk 1 "LEFT_EYE_INNER" 0.625%float 0.125%float (-0.25)%float 0.75%float).
  repeat split.
Defined.

Lemma data_processamento_unica_por_chamada_witness :
  Exemplo.artefato_S ≠ ""
  ∧ arquivos Exemplo.mundo_capturado !! Exemplo.artefato_S
    = Some (ArqJson Exemplo.dados_S)
  ∧ relogio (tec_ex "S.mp4" (Some Exemplo.artefato_S) DB_FILE
               Exemplo.mundo_capturado).1
    = S (relogio Exemplo.mundo_capturado)
  ∧ ∀ l, l ∈ Exemplo.linhas_S →
         Linha.data_processamento l = Exemplo.isoformat 0.
Proof.
  assert (Exemplo.artefato_S ≠ "") as H1 by discriminate.
  assert (arquivos Exemplo.mundo_capturado !! Exemplo.artefato_S
          = Some (ArqJson Exemplo.dados_S)) as H2 by (vm_compute; reflexivity).
  split; [exact H1|]. split; [exact H2|].
  destruct (data_processamento_unica_por_chamada Exemplo.isoformat
              Exemplo.mundo_capturado "S.mp4" Exemplo.artefato_S DB_FILE
              Exemplo.dados_S H1 H2) as (Hr & Hl & _).
  split; [exact Hr|exact Hl].
Defined.

Lemma captura_esparsa_e_crescente_witness :
  videos Exemplo.mundo_pronto !! Exemplo.video_S
    = Some [Exemplo.com_pose; Exemplo.sem_pose; Exemplo.com_pose]
  ∧ extrair_ex Exemplo.video_S KEYPOINTS_OUTPUT_DIR Exemplo.mundo_pronto
    = (Exemplo.mundo_capturado,
       Ok (RetTupla (Some "S.mp4") (Some Exemplo.artefato_S)))
  ∧ ∃ dados,
      arquivos Exemplo.mundo_capturado !! Exemplo.artefato_S = Some (ArqJson dados)
      ∧ StronglySorted Z.lt (FrameData.frame <$> dados)
      ∧ (1 ∈ FrameData.frame <$> dados ↔
         ∃ ls, deteccoes Exemplo.process (pose Exemplo.mundo_pronto)
                 [Exemplo.com_pose; Exemplo.sem_pose; Exemplo.com_pose] !! 1%nat
               = Some (Some ls)).
Proof.
  assert (videos Exemplo.mundo_pronto !! Exemplo.video_S
          = Some [Exemplo.com_pose; Exemplo.sem_pose; Exemplo.com_pose]) as H1
    by (vm_compute; reflexivity).
  assert (extrair_ex Exemplo.video_S KEYPOINTS_OUTPUT_DIR Exemplo.mundo_pronto
          = (Exemplo.mundo_capturado,
             Ok (RetTupla (Some "S.mp4") (Some Exemplo.artefato_S)))) as H2
    by (vm_compute; reflexivity).
  split; [exact H1|]. split; [exact H2|].
  destruct (captura_esparsa_e_crescente Exemplo.process Exemplo.PoseLandmark_name
              _ _ _ _ _ _ _ H1 H2) as (dados & Ha & Hs & Hi & _).
  exists dados. split; [exact Ha|]. split; [exact Hs|]. exact (Hi 1%nat).
Defined.

Lemma video_ilegivel_falha_sem_efeitos_witness :
  videos Exemplo.mundo_pronto !! Exemplo.video_A = None
  ∧ ∃ w1,
      laco_videos Exemplo.process Exemplo.PoseLandmark_name Exemplo.isoformat
        [Exemplo.video_A; Exemplo.video_B] Exemplo.mundo_pronto
      = laco_videos Exemplo.process Exemplo.PoseLandmark_name Exemplo.isoformat
          [Exemplo.video_B] w1
      ∧ chamadas w1 = chamadas Exemplo.mundo_pronto ++ [CVideoCapture Exemplo.video_A]
      ∧ arquivos w1 = arquivos Exemplo.mundo_pronto
      ∧ bancos w1 = bancos Exemplo.mundo_pronto.
Proof.
  assert (videos Exemplo.mundo_pronto !! Exemplo.video_A = None) as H1
    by (vm_compute; reflexivity).
  split; [exact H1|].
  destruct (video_ilegivel_falha_sem_efeitos Exemplo.process
              Exemplo.PoseLandmark_name Exemplo.isoformat
              Exemplo.mundo_pronto Exemplo.video_A [Exemplo.video_B] H1)
    as (_ & w1 & Hl & Hc & Ha & Hb & _).
  exists w1. split; [exact Hl|]. split; [exact Hc|]. split; [exact Ha|exact Hb].
Defined.

Lemma artefato_gravado_no_lugar_witness :
  videos Exemplo.mundo_pronto !! Exemplo.video_S
    = Some [Exemplo.com_pose; Exemplo.sem_pose; Exemplo.com_pose]
  ∧ extrair_ex Exemplo.video_S KEYPOINTS_OUTPUT_DIR Exemplo.mundo_pronto
    = (Exemplo.mundo_capturado,
       Ok (RetTupla (Some "S.mp4") (Some Exemplo.artefato_S)))
  ∧ Exemplo.artefato_S
    = os_path_join KEYPOINTS_OUTPUT_DIR (os_path_basename Exemplo.video_S +:+ ".json").
Proof.
  assert (videos Exemplo.mundo_pronto !! Exemplo.video_S
          = Some [Exemplo.com_pose; Exemplo.sem_pose; Exemplo.com_pose]) as H1
    by (vm_compute; reflexivity).
  assert (extrair_ex Exemplo.video_S KEYPOINTS_OUTPUT_DIR Exemplo.mundo_pronto
          = (Exemplo.mundo_capturado,
             Ok (RetTupla (Some "S.mp4") (Some Exemplo.artefato_S)))) as H2
    by (vm_compute; reflexivity).
  split; [exact H1|]. split; [exact H2|].
  exact (proj1 (artefato_gravado_no_lugar Exemplo.process Exemplo.PoseLandmark_name
                  _ _ _ _ _ _ _ H1 H2)).
Defined.

(** C7, as claimed, fails: while the artifact of S.mp4 is being written,
    after the file is opened and before the document is dumped, the name of
    the artifact holds an empty file, which is neither what was there
    before (nothing) nor the capture, and which [json.load] rejects. *)
Lemma artefato_parcial_visivel :
  arquivos Exemplo.mundo_capturado
  = arquivos (executar_passos
                (salvar_json_passos Exemplo.artefato_S Exemplo.dados_S)
                Exemplo.mundo_antes_de_gravar)
  ∧ (let w1 := executar_passos
                 (take 1 (salvar_json_passos Exemplo.artefato_S Exemplo.dados_S))
                 Exemplo.mundo_antes_de_gravar in
     arquivos Exemplo.mundo_antes_de_gravar !! Exemplo.artefato_S = None
     ∧ arquivos w1 !! Exemplo.artefato_S = Some ArqVazio
     ∧ (tec_ex "S.mp4" (Some Exemplo.artefato_S) DB_FILE w1).2
       = Raise JSONDecodeError)
  ∧ ¬ gravacao_atomica Exemplo.artefato_S Exemplo.dados_S
        Exemplo.mundo_antes_de_gravar.
Proof.
  split; [vm_compute; reflexivity|]. split; [by vm_compute|].
  intros H. specialize (H 1%nat). vm_compute in H. by destruct H.
Qed.

Lemma carga_registra_so_as_inseridas_witness :
  Exemplo.artefato_S ≠ ""
  ∧ arquivos Exemplo.mundo_capturado !! Exemplo.artefato_S
    = Some (ArqJson Exemplo.dados_S)
  ∧ linhas_para_db "S.mp4" Exemplo.dados_S
      (Exemplo.isoformat (relogio Exemplo.mundo_capturado)) ≠ []
  ∧ banco_em Exemplo.mundo_capturado DB_FILE = Banco (Some [])
  ∧ (tec_ex "S.mp4" (Some Exemplo.artefato_S) DB_FILE Exemplo.mundo_capturado).2
    = Ok tt.
Proof.
  assert (Exemplo.artefato_S ≠ "") as H1 by discriminate.
  assert (arquivos Exemplo.mundo_capturado !! Exemplo.artefato_S
          = Some (ArqJson Exemplo.dados_S)) as H2 by (vm_compute; reflexivity).
  assert (linhas_para_db "S.mp4" Exemplo.dados_S
            (Exemplo.isoformat (relogio Exemplo.mundo_capturado)) ≠ []) as H3
    by (vm_compute; discriminate).
  assert (banco_em Exemplo.mundo_capturado DB_FILE = Banco (Some [])) as H4
    by (vm_compute; reflexivity).
  split; [exact H1|]. split; [exact H2|]. split; [exact H3|]. split; [exact H4|].
  exact (proj1 (carga_registra_so_as_inseridas Exemplo.isoformat
                  Exemplo.mundo_capturado "S.mp4" Exemplo.artefato_S DB_FILE
                  Exemplo.dados_S [] H1 H2 H3 H4)).
Defined.

(** C8, as claimed, fails: the first load of S.mp4 and its re-load return
    the same value, [None], although the first adds 4 rows and skips none
    and the second adds none and skips 4; no reading of the returned value
    gives the two counts. *)
Lemma retorno_nao_traz_contagens :
  let r1 := tec_ex "S.mp4" (Some Exemplo.artefato_S) DB_FILE Exemplo.mundo_capturado in
  let r2 := tec_ex "S.mp4" (Some Exemplo.artefato_S) DB_FILE r1.1 in
  r1.2 = Ok tt ∧ r2.2 = Ok tt
  ∧ length (linhas_em Exemplo.mundo_capturado DB_FILE) = 0%nat
  ∧ length (linhas_em r1.1 DB_FILE) = 4%nat
  ∧ length (linhas_em r2.1 DB_FILE) = 4%nat
  ∧ ¬ ∃ contagens : result unit → nat * nat,
        contagens r1.2 = (4%nat, 0%nat) ∧ contagens r2.2 = (0%nat, 4%nat).
Proof.
  intros r1 r2.
  assert (r1.2 = Ok tt) as E1 by (vm_compute; reflexivity).
  assert (r2.2 = Ok tt) as E2 by (vm_compute; reflexivity).
  split_and!; [done|done|by vm_compute..|].
  intros (f & H1 & H2). rewrite E1 in H1. rewrite E2 in H2. congruence.
Qed.

Lemma falha_de_um_video_nao_aborta_witness :
  (main_ex Exemplo.mundo).2 = Ok tt
  ∧ tentativas (chamadas (main_ex Exemplo.mundo).1)
    = tentativas (chamadas Exemplo.mundo)
      ++ glob_mp4 VIDEO_INPUT_DIR (entradas Exemplo.mundo).
Proof.
  exact (proj2 (proj2 (falha_de_um_video_nao_aborta Exemplo.process
                         Exemplo.PoseLandmark_name Exemplo.isoformat
                         Exemplo.mundo))).
Defined.

Lemma so_mp4_e_processado_witness :
  endswith "e.MP4" ".mp4" = false
  ∧ (os_path_join VIDEO_INPUT_DIR "e.MP4"
       ∉ glob_mp4 VIDEO_INPUT_DIR (entradas Exemplo.mundo))
  ∧ arquivos (main_ex Exemplo.mundo).1
      !! os_path_join KEYPOINTS_OUTPUT_DIR ("e.MP4" +:+ ".json")
    = arquivos Exemplo.mundo
        !! os_path_join KEYPOINTS_OUTPUT_DIR ("e.MP4" +:+ ".json")
  ∧ "B.mp4" ∈ entradas Exemplo.mundo
  ∧ glob_casa_mp4 "B.mp4" = true
  ∧ banco_em Exemplo.mundo DB_FILE = Banco None
  ∧ os_path_join VIDEO_INPUT_DIR "B.mp4"
      ∈ tentativas (chamadas (main_ex Exemplo.mundo).1).
Proof.
  assert (endswith "e.MP4" ".mp4" = false) as H1 by reflexivity.
  assert ("B.mp4" ∈ entradas Exemplo.mundo) as H2 by (right; left).
  assert (glob_casa_mp4 "B.mp4" = true) as H3 by reflexivity.
  assert (banco_em Exemplo.mundo DB_FILE = Banco None) as H4 by reflexivity.
  destruct (so_mp4_e_processado Exemplo.process Exemplo.PoseLandmark_name
              Exemplo.isoformat Exemplo.mundo) as (_ & _ & _ & _ & Hop & H).
  destruct (H "e.MP4" H1) as (_ & Hn & Ha & _).
  split; [exact H1|]. split; [exact Hn|]. split; [exact Ha|].
  split; [exact H2|]. split; [exact H3|]. split; [exact H4|].
  exact (Hop "B.mp4" None H2 H3 H4).
Defined.

End Instances.

(** * Further properties of the code *)

(** ** Names of videos and of artifacts *)

Section NameFacts.

Lemma basename_sem_barra_id n : tem_barra n = false → os_path_basename n = n.
Proof.
  destruct n as [|c n]; [done|]. cbn [tem_barra os_path_basename].
  intros [Hc Hn]%orb_false_iff. rewrite Hn.
  by rewrite Hc.
Qed.

Lemma basename_apos_barra a n :
  tem_barra n = false → os_path_basename (a +:+ String barra n) = n.
Proof.
  intros Hn. induction a as [|c a IH].
  - change ("" +:+ String barra n) with (String barra n).
    cbn [os_path_basename]. rewrite Hn. by rewrite bool_decide_eq_true_2.
  - rewrite string_app_cons. cbn [os_path_basename].
    rewrite tem_barra_app. cbn [tem_barra].
    rewrite (bool_decide_eq_true_2 (barra = barra)) by done.
    by rewrite orb_true_r.
Qed.

Lemma endswith_barra_inv a : endswith a "/" = true → ∃ a', a = a' +:+ "/".
Proof.
  induction a as [|c a IH]; cbn [endswith]; intros H.
  - rewrite orb_false_r in H. by apply bool_decide_eq_true in H.
  - apply orb_true_iff in H as [H|H].
    + apply bool_decide_eq_true in H. exists "". by rewrite H.
    + destruct (IH H) as [a' ->]. by exists (String c a').
Qed.

Lemma sem_barra_nao_comeca n : tem_barra n = false → startswith_barra n = false.
Proof. destruct n as [|c n]; [done|]. cbn. by intros [? _]%orb_false_iff. Qed.

Lemma basename_join dir nome :
  tem_barra nome = false → os_path_basename (os_path_join dir nome) = nome.
Proof.
  intros Hn. unfold os_path_join. rewrite (sem_barra_nao_comeca nome Hn).
  destruct (bool_decide (dir = "")) eqn:Hd; cbn [orb].
  - apply bool_decide_eq_true in Hd. subst dir. by apply basename_sem_barra_id.
  - destruct (endswith dir "/") eqn:He.
    + destruct (endswith_barra_inv dir He) as [a' ->].
      rewrite string_app_assoc. by apply basename_apos_barra.
    + by apply basename_apos_barra.
Qed.

(** An entry of the input directory keeps its name: the video name used for
    the rows and for the artifact of a work item is the entry itself, the
    artifact is KEYPOINTS_OUTPUT_DIR/<entry>.json, and two entries never get
    the same artifact. *)
Theorem nome_e_artefato_da_entrada dir n1 n2 :
  tem_barra n1 = false → tem_barra n2 = false →
  os_path_basename (os_path_join dir n1) = n1
  ∧ caminho_artefato (os_path_join dir n1)
    = KEYPOINTS_OUTPUT_DIR +:+ "/" +:+ n1 +:+ ".json"
  ∧ (caminho_artefato (os_path_join dir n1) = caminho_artefato (os_path_join dir n2)
     → n1 = n2).
Proof.
  intros H1 H2.
  assert (∀ n, tem_barra n = false →
            caminho_artefato (os_path_join dir n)
            = KEYPOINTS_OUTPUT_DIR +:+ "/" +:+ n +:+ ".json") as Hc.
  { intros n Hn. unfold caminho_artefato. rewrite (basename_join dir n Hn).
    apply os_path_join_KEYPOINTS. by apply startswith_barra_sem_barra. }
  split_and!; [by apply basename_join|by apply Hc|].
  rewrite (Hc n1 H1), (Hc n2 H2). intros E.
  do 2 apply (inj (String.app _)) in E. by apply string_app_inv_tail in E.
Qed.

Lemma nome_e_artefato_da_entrada_witness :
  tem_barra "B.mp4" = false ∧ tem_barra "S.mp4" = false
  ∧ os_path_basename (os_path_join VIDEO_INPUT_DIR "B.mp4") = "B.mp4"
  ∧ caminho_artefato (os_path_join VIDEO_INPUT_DIR "B.mp4")
    = KEYPOINTS_OUTPUT_DIR +:+ "/" +:+ "B.mp4" +:+ ".json".
Proof.
  assert (tem_barra "B.mp4" = false) as H1 by reflexivity.
  assert (tem_barra "S.mp4" = false) as H2 by reflexivity.
  split; [exact H1|]. split; [exact H2|].
  destruct (nome_e_artefato_da_entrada VIDEO_INPUT_DIR "B.mp4" "S.mp4" H1 H2)
    as (Hb & Hc & _).
  split; [exact Hb|exact Hc].
Defined.

End NameFacts.

(** ** More on the capture *)

Section CaptureMore.
Context {Image Pose : Type}.
Variable process : Pose → Image → Pose * option (list NormalizedLandmark.t).
Variable PoseLandmark_name : Z → option string.
Variable isoformat : nat → string.
Implicit Types w : Mundo Image Pose.

Local Abbreviation laco := (laco_frames process PoseLandmark_name).
Local Abbreviation extrair := (extrair_keypoints process PoseLandmark_name).
Local Abbreviation enumerar := (enumerate_landmarks PoseLandmark_name).
Local Abbreviation processar := (processar_video process PoseLandmark_name isoformat).

(** The loop over the landmarks numbers them from [idx], names them after
    [PoseLandmark] and copies the four coordinates. *)
Lemma enumerate_landmarks_Ok ls : ∀ idx acc lds,
  enumerar idx ls acc = Ok lds →
  ∃ novos,
    lds = acc ++ novos ∧ length novos = length ls
    ∧ ∀ (j : nat) lm, ls !! j = Some lm →
        ∃ nome,
          PoseLandmark_name (idx + Z.of_nat j) = Some nome
          ∧ novos !! j
            = Some (LandmarkData.mk (idx + Z.of_nat j) nome
                      (NormalizedLandmark.x lm) (NormalizedLandmark.y lm)
                      (NormalizedLandmark.z lm) (NormalizedLandmark.visibility lm)).
Proof.
  induction ls as [|l ls IH]; intros idx acc lds H; simpl in H.
  - simplify_eq. exists []. rewrite app_nil_r. split_and!; [done|done|].
    intros j lm Hj. by rewrite lookup_nil in Hj.
  - destruct (PoseLandmark_name idx) as [nome|] eqn:Hn; [|done].
    apply IH in H as (novos & -> & Hlen & Hj).
    eexists (_ :: novos). rewrite <- app_assoc. split_and!; [done|simpl; lia|].
    intros [|j] lm Hlm; simpl in Hlm.
    + simplify_eq. exists nome. rewrite Z.add_0_r. done.
    + destruct (Hj j lm Hlm) as (nome' & Hn' & Hl').
      exists nome'. replace (idx + Z.of_nat (S j)) with (idx + 1 + Z.of_nat j) by lia.
      done.
Qed.

Lemma enumerate_landmarks_Raise ls : ∀ idx acc e,
  enumerar idx ls acc = Raise e →
  e = ValueError
  ∧ ∃ j, idx ≤ j < idx + Z.of_nat (length ls) ∧ PoseLandmark_name j = None.
Proof.
  induction ls as [|l ls IH]; intros idx acc e H; simpl in H; [done|].
  destruct (PoseLandmark_name idx) as [nome|] eqn:Hn.
  - apply IH in H as (-> & j & Hj & Hnone). split; [done|].
    exists j. split; [cbn [length]; lia|done].
  - simplify_eq. split; [done|]. exists idx. split; [cbn [length]; lia|done].
Qed.

(** What a capture that returns a pair went through. *)
Lemma extrair_keypoints_par w video_path out w' v jp :
  extrair video_path out w = (w', Ok (RetTupla (Some v) (Some jp))) →
  ∃ frames w3 dados,
    videos w !! video_path = Some frames
    ∧ laco video_path frames 0 [] (apos_abrir video_path w)
      = (w3, Ok (Z.of_nat (length frames), dados))
    ∧ dados ≠ []
    ∧ v = os_path_basename video_path
    ∧ jp = os_path_join out (os_path_basename video_path +:+ ".json")
    ∧ arquivos w' = <[jp := ArqJson dados]> (arquivos w)
    ∧ bancos w' = bancos w ∧ relogio w' = relogio w ∧ pose w' = pose w3
    ∧ chamadas w' = chamadas w3 ++ [CRelease video_path]
    ∧ log w' = log w ++ [(INFO, Extraindo (os_path_basename video_path));
                         (INFO, ExtracaoConcluida (Z.of_nat (length frames)))].
Proof.
  intros H. destruct (videos w !! video_path) as [frames|] eqn:Hv.
  - rewrite (extrair_keypoints_abre _ _ w video_path out frames Hv) in H.
    destruct (laco video_path frames 0 [] (apos_abrir video_path w))
      as [w3 [[k dados]|e]] eqn:Hl; [|done].
    pose proof (laco_frames_inv _ _ _ _ _ _ _ _ _ _ Hl) as (-> & Ha & Hb & Hlog & _).
    pose proof (laco_frames_efeitos _ _ _ _ _ _ _ _ _ Hl) as (_ & _ & _ & _ & Hr & _).
    destruct dados as [|fd dados]; [by inversion H|].
    destruct out as [|c out]; [by inversion H|].
    cbn zeta in H. inversion H; subst; clear H.
    exists frames, w3, (fd :: dados). simpl.
    split_and!; try done.
    + rewrite insert_insert_eq. by rewrite Ha.
    + rewrite Hlog. simpl. by rewrite <- app_assoc.
  - rewrite (extrair_keypoints_nao_abre _ _ w video_path out Hv) in H. done.
Qed.

(** In the artifact of a capture, every record holds the landmarks the
    detector found on that frame, in order: numbered from 0, named after
    [PoseLandmark], with x, y, z and visibility as the detector gave them. *)
Theorem artefato_guarda_o_detectado w video_path out w' v jp :
  extrair video_path out w = (w', Ok (RetTupla (Some v) (Some jp))) →
  ∃ frames dados,
    videos w !! video_path = Some frames
    ∧ arquivos w' !! jp = Some (ArqJson dados)
    ∧ ∀ fd, fd ∈ dados →
        ∃ (i : nat) ls,
          FrameData.frame fd = Z.of_nat i
          ∧ deteccoes process (pose w) frames !! i = Some (Some ls)
          ∧ length (FrameData.landmarks fd) = length ls
          ∧ ∀ (j : nat) lm, ls !! j = Some lm →
              ∃ nome,
                PoseLandmark_name (Z.of_nat j) = Some nome
                ∧ FrameData.landmarks fd !! j
                  = Some (LandmarkData.mk (Z.of_nat j) nome
                            (NormalizedLandmark.x lm) (NormalizedLandmark.y lm)
                            (NormalizedLandmark.z lm)
                            (NormalizedLandmark.visibility lm)).
Proof.
  intros H.
  apply extrair_keypoints_par in H
    as (frames & w3 & dados & Hv & Hl & _ & _ & _ & Ha & _).
  exists frames, dados. split; [done|]. split; [by rewrite Ha, lookup_insert_eq|].
  apply laco_frames_inv in Hl as (_ & _ & _ & _ & novos & -> & _ & Hin & _).
  simpl in Hin. intros fd Hfd. destruct (Hin fd Hfd) as (i & ls & Hf & Hd & He).
  exists i, ls. split; [lia|]. split; [done|].
  apply enumerate_landmarks_Ok in He as (novos' & Hn & Hlen & Hj).
  simpl in Hn. subst novos'. split; [done|]. exact Hj.
Qed.

Lemma leituras_S video_path n :
  leituras video_path (S n) = CRead video_path :: CProcess :: leituras video_path n.
Proof. reflexivity. Qed.

Lemma laco_frames_chamadas video_path cap : ∀ k acc w w' r,
  laco video_path cap k acc w = (w', Ok r) →
  chamadas w' = chamadas w ++ leituras video_path (length cap)
  ∧ pose w' = estado_final process (pose w) cap.
Proof.
  induction cap as [|image cap IH]; intros k acc w w' r H.
  - unfold laco_frames, bind, chamar, ret in H. by simplify_eq/=.
  - simpl in H. unfold bind, chamar, pose_process, bind, chamar in H. simpl in H.
    destruct (process (pose w) image) as [p o] eqn:Hp. simpl in H.
    assert (∀ dados', laco video_path cap (k + 1) dados'
              (com_pose p (com_chamadas ((chamadas w ++ [CRead video_path]) ++ [CProcess])
                 (com_chamadas (chamadas w ++ [CRead video_path]) w))) = (w', Ok r) →
            chamadas w' = chamadas w ++ leituras video_path (length (image :: cap))
            ∧ pose w' = estado_final process (pose w) (image :: cap)) as Hrec.
    { intros dados' H'. apply IH in H' as [Hc Hs]. simpl in Hc, Hs.
      cbn [length]. rewrite leituras_S, Hc, <- !app_assoc. split; [done|].
      unfold estado_final. simpl. by rewrite Hp. }
    destruct o as [ls|]; [|by apply Hrec in H].
    destruct (enumerar 0 ls []) as [lds|e]; [by apply Hrec in H|done].
Qed.

(** A capture that returns reads every frame of its video and hands it to
    the detector exactly once, in order, makes one more read (the one that
    fails) and releases the video; the detector is left in the tracking
    state reached on the last frame, which is where the next video starts. *)
Theorem captura_le_cada_frame_uma_vez w video_path out frames w' r :
  videos w !! video_path = Some frames →
  extrair video_path out w = (w', Ok r) →
  chamadas w' = chamadas w ++ CVideoCapture video_path
                  :: leituras video_path (length frames) ++ [CRelease video_path]
  ∧ pose w' = estado_final process (pose w) frames.
Proof.
  intros Hv H. rewrite (extrair_keypoints_abre _ _ w video_path out frames Hv) in H.
  destruct (laco video_path frames 0 [] (apos_abrir video_path w))
    as [w3 [[k dados]|e]] eqn:Hl; [|done].
  apply laco_frames_chamadas in Hl as [Hc Hp]. simpl in Hc, Hp.
  destruct dados; [|destruct out; [by inversion H|]];
    inversion H; subst; clear H; simpl;
    rewrite Hc, <- !app_assoc; done.
Qed.

Lemma laco_frames_Raise video_path cap : ∀ k acc w w' e,
  laco video_path cap k acc w = (w', Raise e) →
  e = ValueError
  ∧ (∃ (i : nat) ls j,
       deteccoes process (pose w) cap !! i = Some (Some ls)
       ∧ 0 ≤ j < Z.of_nat (length ls) ∧ PoseLandmark_name j = None)
  ∧ ∃ cs, chamadas w' = chamadas w ++ cs ∧ CRelease video_path ∉ cs.
Proof.
  induction cap as [|image cap IH]; intros k acc w w' e H.
  - unfold laco_frames, bind, chamar, ret in H. by simplify_eq/=.
  - simpl in H. unfold bind, chamar, pose_process, bind, chamar in H. simpl in H.
    destruct (process (pose w) image) as [p o] eqn:Hp. simpl in H.
    assert (∀ dados', laco video_path cap (k + 1) dados'
              (com_pose p (com_chamadas ((chamadas w ++ [CRead video_path]) ++ [CProcess])
                 (com_chamadas (chamadas w ++ [CRead video_path]) w))) = (w', Raise e) →
            e = ValueError
            ∧ (∃ (i : nat) ls j,
                 deteccoes process (pose w) (image :: cap) !! i = Some (Some ls)
                 ∧ 0 ≤ j < Z.of_nat (length ls) ∧ PoseLandmark_name j = None)
            ∧ ∃ cs, chamadas w' = chamadas w ++ cs ∧ CRelease video_path ∉ cs)
      as Hrec.
    { intros dados' H'. apply IH in H' as (-> & (i & ls & j & Hd & Hj & Hn) & cs & Hc & Hcs).
      simpl in Hd, Hc. split; [done|]. split.
      - exists (S i), ls, j. simpl. rewrite Hp. done.
      - exists (CRead video_path :: CProcess :: cs).
        rewrite Hc, <- !app_assoc. split; [done|].
        intros [?|[?|?]%elem_of_cons]%elem_of_cons; done. }
    destruct o as [ls|]; [|by apply Hrec in H].
    destruct (enumerar 0 ls []) as [lds|e'] eqn:He; [by apply Hrec in H|].
    simplify_eq/=. apply enumerate_landmarks_Raise in He as (-> & j & Hj & Hn).
    split; [done|]. split.
    + exists 0%nat, ls, j. rewrite Hp. simpl. split_and!; [done|lia|lia|done].
    + exists [CRead video_path; CProcess]. rewrite <- app_assoc. split; [done|].
      intros [?|[?|[]%elem_of_nil]%elem_of_cons]%elem_of_cons; done.
Qed.

(** When the detector answers, on some frame of a readable video, with
    more landmarks than [PoseLandmark] has members, the capture ends in the
    [ValueError] of [PoseLandmark(idx)], raised inside the frame loop
    whatever the output directory: no artifact is written, no database
    changes, and the video is never released. *)
Theorem deteccao_grande_demais_levanta_ValueError
    w video_path out frames (i : nat) ls j :
  videos w !! video_path = Some frames →
  deteccoes process (pose w) frames !! i = Some (Some ls) →
  0 ≤ j < Z.of_nat (length ls) →
  PoseLandmark_name j = None →
  ∃ w',
    extrair video_path out w = (w', Raise ValueError)
    ∧ arquivos w' = arquivos w ∧ bancos w' = bancos w
    ∧ ∃ cs, chamadas w' = chamadas w ++ cs ∧ CRelease video_path ∉ cs.
Proof.
  intros Hv Hd Hj Hn.
  rewrite (extrair_keypoints_abre _ _ w video_path out frames Hv).
  destruct (laco video_path frames 0 [] (apos_abrir video_path w))
    as [w3 [[k dados]|e3]] eqn:Hl.
  - exfalso.
    apply laco_frames_inv in Hl as (_ & _ & _ & _ & novos & _ & _ & Hin & Hout).
    simpl in Hin, Hout.
    apply Hout in Hd as Hi. apply list_elem_of_fmap in Hi as (fd & Hf & Hfd).
    destruct (Hin fd Hfd) as (i' & ls' & Hf' & Hd' & He).
    assert (i' = i) as -> by lia. rewrite Hd in Hd'. simplify_eq.
    apply enumerate_landmarks_Ok in He as (nv & _ & _ & Hnomes).
    destruct (lookup_lt_is_Some_2 ls' (Z.to_nat j)) as [lm Hlm]; [lia|].
    destruct (Hnomes _ lm Hlm) as (nome & Hnome & _).
    replace (0 + Z.of_nat (Z.to_nat j)) with j in Hnome by lia. congruence.
  - pose proof (laco_frames_efeitos _ _ _ _ _ _ _ _ _ Hl) as (_ & _ & Ha & Hb & _).
    apply laco_frames_Raise in Hl as (-> & _ & cs & Hc & Hcs).
    eexists. split; [reflexivity|]. simpl in *. split_and!; try done.
    exists (CVideoCapture video_path :: cs). rewrite Hc, <- app_assoc.
    split; [done|]. intros [?|?]%elem_of_cons; done.
Qed.

(** A video that opens but on which the detector never answers gives
    [(None, None)], and only such a video does: no artifact is written, the
    log gets the warning, and [main] goes on without transforming or
    loading anything for it. *)
Theorem video_sem_pose_nao_deixa_rastro w video_path frames :
  videos w !! video_path = Some frames →
  (∀ (i : nat) o, deteccoes process (pose w) frames !! i = Some o → o = None) →
  (∀ out, ∃ w',
      extrair video_path out w = (w', Ok (RetTupla None None))
      ∧ arquivos w' = arquivos w ∧ bancos w' = bancos w ∧ relogio w' = relogio w
      ∧ log w' = log w ++ [(INFO, Extraindo (os_path_basename video_path));
                           (WARNING, NenhumaPose (os_path_basename video_path))])
  ∧ processar video_path w = ((extrair video_path KEYPOINTS_OUTPUT_DIR w).1, Ok tt)
  ∧ (∀ out w0, (extrair video_path out w0).2 = Ok (RetTupla None None) →
       ∃ frames0, videos w0 !! video_path = Some frames0
         ∧ ∀ (i : nat) o,
             deteccoes process (pose w0) frames0 !! i = Some o → o = None).
Proof.
  intros Hv Hnone.
  assert (∀ out, ∃ w',
      extrair video_path out w = (w', Ok (RetTupla None None))
      ∧ arquivos w' = arquivos w ∧ bancos w' = bancos w ∧ relogio w' = relogio w
      ∧ log w' = log w ++ [(INFO, Extraindo (os_path_basename video_path));
                           (WARNING, NenhumaPose (os_path_basename video_path))])
    as Hext.
  { intros out. rewrite (extrair_keypoints_abre _ _ w video_path out frames Hv).
    destruct (laco_frames_total process PoseLandmark_name video_path frames 0 []
                (apos_abrir video_path w)) as (w3 & k & dados & Hl).
    { intros i ls Hi. by apply Hnone in Hi. }
    rewrite Hl.
    pose proof (laco_frames_efeitos _ _ _ _ _ _ _ _ _ Hl) as (_ & _ & Ha & Hb & Hr & Hlog & _).
    apply laco_frames_inv in Hl as (_ & _ & _ & _ & novos & -> & _ & Hin & _).
    destruct novos as [|fd novos].
    - eexists. split; [reflexivity|]. simpl in *.
      rewrite Hlog, <- app_assoc. done.
    - destruct (Hin fd) as (i & ls & _ & Hd & _); [left|].
      simpl in Hd. by apply Hnone in Hd. }
  split; [exact Hext|]. split.
  - unfold processar_video, bind. destruct (Hext KEYPOINTS_OUTPUT_DIR) as (w' & -> & _).
    reflexivity.
  - intros out w0 H0. destruct (videos w0 !! video_path) as [frames0|] eqn:Hv0.
    + exists frames0. split; [done|].
      rewrite (extrair_keypoints_abre _ _ w0 video_path out frames0 Hv0) in H0.
      destruct (laco video_path frames0 0 [] (apos_abrir video_path w0))
        as [w3 [[k dados]|e3]] eqn:Hl; [|done].
      apply laco_frames_inv in Hl as (_ & _ & _ & _ & novos & -> & _ & _ & Hout).
      simpl in Hout, H0. destruct novos as [|fd novos]; [|by destruct out].
      intros i [ls|] Hi; [|done]. apply Hout in Hi.
      by apply elem_of_nil in Hi.
    + by rewrite (extrair_keypoints_nao_abre _ _ w0 video_path out Hv0) in H0.
Qed.

End CaptureMore.

(** ** More on the database and on the load *)

Section LoadMore.
Context {Image Pose : Type}.
Variable isoformat : nat → string.
Implicit Types w : Mundo Image Pose.
Import Sqlite.

Local Abbreviation tec := (transformar_e_carregar isoformat).

(** [setup_database] never loses data.  Whenever it returns, the directory
    part of the path was not empty, the database could be opened, the table
    is in place with exactly the rows it had (none if it was just created),
    no other database was touched, and a second call returns as well and
    changes no database.  Whenever it raises, no database has changed and
    "ready" was not logged; a path without a directory part makes it raise
    the [FileNotFoundError] of [os.makedirs('')].  It never touches a file
    or a video. *)
Theorem setup_database_conserva_as_linhas w db_path :
  let w1 := (setup_database db_path w).1 in
  ((setup_database db_path w).2 = Ok tt →
     os_path_dirname db_path ≠ "" ∧ banco_em w db_path ≠ Inacessivel
     ∧ banco_em w1 db_path = Banco (Some (linhas_em w db_path))
     ∧ (∀ db, db ≠ db_path → bancos w1 !! db = bancos w !! db)
     ∧ (setup_database db_path w1).2 = Ok tt
     ∧ bancos (setup_database db_path w1).1 = bancos w1)
  ∧ (∀ e, (setup_database db_path w).2 = Raise e →
       bancos w1 = bancos w
       ∧ log w1 = log w ++ [(INFO, ConfigurandoBanco db_path)])
  ∧ (os_path_dirname db_path = "" →
     (setup_database db_path w).2 = Raise FileNotFoundError)
  ∧ arquivos w1 = arquivos w ∧ chamadas w1 = chamadas w.
Proof.
  intros w1. subst w1.
  unfold setup_database, bind, logging, os_makedirs, raise, ret, sqlite3_connect.
  destruct (os_path_dirname db_path) as [|c d] eqn:Hd.
  - cbn [fst snd]. split_and!; try done.
  - change (banco_em (com_log (log w ++ [(INFO, ConfigurandoBanco db_path)]) w) db_path)
      with (banco_em w db_path).
    unfold linhas_em. destruct (banco_em w db_path) as [|t] eqn:Hb.
    + cbn [fst snd]. split_and!; try done.
    + cbn [fst snd]. split_and!; try done.
      intros _. split; [done|]. split; [done|]. split.
      { unfold banco_em. simpl. rewrite lookup_insert_eq. simpl. by destruct t. }
      split.
      { intros db Hdb. simpl. by rewrite lookup_insert_ne. }
      set (w1 := com_log _ (com_bancos _ _)).
      assert (banco_em w1 db_path
              = Banco (Some (create_table_if_not_exists t))) as Hb1.
      { unfold banco_em, w1. simpl. by rewrite lookup_insert_eq. }
      change (banco_em (com_log (log w1 ++ [(INFO, ConfigurandoBanco db_path)]) w1) db_path)
        with (banco_em w1 db_path).
      rewrite Hb1. cbn [fst snd]. split; [done|]. simpl. apply insert_insert_eq.
Qed.

Lemma chaves_linhas_para_db v dados ts1 ts2 :
  chaves (linhas_para_db v dados ts1) = chaves (linhas_para_db v dados ts2).
Proof.
  rewrite !linhas_para_db_join. unfold chaves.
  induction dados as [|fd dados IH]; [done|]. csimpl.
  rewrite !fmap_app, IH. f_equal.
  rewrite <- !list_fmap_compose. by apply list_fmap_ext.
Qed.

(** Transforming and loading the same artifact again stores nothing new
    and updates nothing: the second call reads a later time, but the rows it
    builds have the keys of the first, so the databases stay as the first
    call left them and the count it logs is 0. *)
Theorem recarregar_nao_atualiza w v caminho db dados t :
  caminho ≠ "" →
  arquivos w !! caminho = Some (ArqJson dados) →
  banco_em w db = Banco (Some t) →
  let w1 := (tec v (Some caminho) db w).1 in
  let w2 := (tec v (Some caminho) db w1).1 in
  bancos w2 = bancos w1
  ∧ relogio w2 = S (S (relogio w))
  ∧ (linhas_para_db v dados (isoformat (relogio w)) ≠ [] →
     last (log w2) = Some (INFO, Sucesso 0)).
Proof.
  intros Hne Harq Ht w1 w2. subst w1 w2.
  rewrite (transformar_e_carregar_lido isoformat w v caminho db dados Hne Harq).
  cbn zeta. set (w0 := com_relogio _ _).
  pose proof (chaves_linhas_para_db v dados (isoformat (relogio w))
                (isoformat (S (relogio w)))) as Hch.
  destruct (linhas_para_db v dados (isoformat (relogio w))) as [|l0 ls] eqn:E.
  - unfold logging. cbn [fst].
    set (w1 := com_log _ w0).
    assert (arquivos w1 !! caminho = Some (ArqJson dados)) as Harq1 by exact Harq.
    rewrite (transformar_e_carregar_lido isoformat w1 v caminho db dados Hne Harq1).
    cbn zeta. change (relogio w1) with (S (relogio w)).
    destruct (linhas_para_db v dados (isoformat (S (relogio w)))); [|done].
    simpl. done.
  - assert (banco_em w0 db = Banco (Some t)) as Ht0 by exact Ht.
    rewrite (carregar_com_tabela w0 db (l0 :: ls) t Ht0). cbn [fst].
    set (t1 := (executemany (l0 :: ls) t 0).1).
    set (w1 := com_log _ _).
    assert (arquivos w1 !! caminho = Some (ArqJson dados)) as Harq1 by exact Harq.
    assert (banco_em w1 db = Banco (Some t1)) as Ht1 by apply banco_em_insert.
    rewrite (transformar_e_carregar_lido isoformat w1 v caminho db dados Hne Harq1).
    cbn zeta. change (relogio w1) with (S (relogio w)).
    destruct (linhas_para_db v dados (isoformat (S (relogio w)))) as [|l1 ls1] eqn:E2;
      [done|].
    set (w0' := com_relogio _ _).
    assert (banco_em w0' db = Banco (Some t1)) as Ht0' by exact Ht1.
    rewrite (carregar_com_tabela w0' db (l1 :: ls1) t1 Ht0').
    assert (executemany (l1 :: ls1) t1 0 = (t1, 0%nat)) as ->.
    { apply executemany_tudo_ignorado. intros l Hl.
      assert (Linha.chave l ∈ chaves (l0 :: ls)) as Hk
        by (rewrite Hch; by apply list_elem_of_fmap_2).
      apply list_elem_of_fmap in Hk as (l' & -> & Hl').
      by apply executemany_chaves_presentes. }
    cbn [fst snd]. split_and!.
    + simpl. apply insert_insert_eq.
    + done.
    + intros _. simpl. by rewrite last_snoc.
Qed.

(** When the store fails under a load, nothing is stored and the SQLite
    error is logged; what happens next depends on the failure: a table that
    does not exist ends the call normally, a database that cannot be opened
    makes the [finally] clause read [conn] before it was ever assigned, and
    the call ends in [UnboundLocalError]. *)
Theorem falha_do_banco_na_carga w v caminho db dados :
  caminho ≠ "" →
  arquivos w !! caminho = Some (ArqJson dados) →
  linhas_para_db v dados (isoformat (relogio w)) ≠ [] →
  (∀ t, banco_em w db ≠ Banco (Some t)) →
  let w' := (tec v (Some caminho) db w).1 in
  bancos w' = bancos w ∧ arquivos w' = arquivos w
  ∧ log w' = log w ++ [(INFO, Processando v); (ERROR, ErroSqlite OperationalError)]
  ∧ (tec v (Some caminho) db w).2
    = match banco_em w db with
      | Inacessivel => Raise UnboundLocalError
      | Banco _ => Ok tt
      end.
Proof.
  intros Hne Harq Hlin Hb w'. subst w'.
  rewrite (transformar_e_carregar_lido isoformat w v caminho db dados Hne Harq).
  cbn zeta. destruct (linhas_para_db v dados (isoformat (relogio w))) as [|l0 ls];
    [done|].
  unfold carregar, sqlite3_connect.
  change (banco_em (com_relogio _ (com_log _ w)) db) with (banco_em w db).
  destruct (banco_em w db) as [|[t|]]; [|by destruct (Hb t)|].
  - simpl. split_and!; try done. by rewrite <- app_assoc.
  - simpl. split_and!; try done. by rewrite <- app_assoc.
Qed.

(** [transformar_e_carregar] touches nothing but the table it is given.
    Whatever the call ends in, it writes no file, makes no call to OpenCV or
    to the detector, leaves every other database alone, and the table of
    [db] keeps its rows, in place, followed by rows of the video named.
    Without a path it does nothing at all; when the artifact does not exist
    it ends in the [FileNotFoundError] of [open], and when the artifact is
    empty in the [JSONDecodeError] of [json.load], in both cases after the
    first log record, before the clock is read and before the database is
    opened. *)
Theorem transformar_e_carregar_so_toca_o_banco w v json_path db :
  let w' := (tec v json_path db w).1 in
  let r := (tec v json_path db w).2 in
  (entradas w' = entradas w ∧ videos w' = videos w
   ∧ arquivos w' = arquivos w ∧ chamadas w' = chamadas w
   ∧ (∀ db', db' ≠ db → bancos w' !! db' = bancos w !! db')
   ∧ ∃ novas, linhas_em w' db = linhas_em w db ++ novas
              ∧ ∀ l, l ∈ novas → Linha.video_nome l = v)
  ∧ (verdadeiro json_path = false → w' = w ∧ r = Ok tt)
  ∧ (∀ c, json_path = Some c → c ≠ "" → arquivos w !! c = None →
       r = Raise FileNotFoundError
       ∧ bancos w' = bancos w ∧ relogio w' = relogio w
       ∧ log w' = log w ++ [(INFO, Processando v)])
  ∧ (∀ c, json_path = Some c → c ≠ "" → arquivos w !! c = Some ArqVazio →
       r = Raise JSONDecodeError
       ∧ bancos w' = bancos w ∧ relogio w' = relogio w
       ∧ log w' = log w ++ [(INFO, Processando v)]).
Proof.
  intros w' r. subst w' r. split.
  { destruct (tec v json_path db w) as [w' r] eqn:H.
    apply transformar_e_carregar_efeitos in H as (? & ? & ? & ? & ? & Hs).
    apply so_acrescenta_linhas in Hs. simpl. split_and!; done. }
  split.
  { intros Hv. by destruct json_path as [[|c s]|]. }
  split; intros c -> Hc Ha; (destruct c as [|c0 c]; [done|]);
    unfold transformar_e_carregar, bind, logging, json_load; simpl;
    rewrite Ha; done.
Qed.

End LoadMore.

(** ** From the detector to the table *)

Section EndToEnd.
Context {Image Pose : Type}.
Variable process : Pose → Image → Pose * option (list NormalizedLandmark.t).
Variable PoseLandmark_name : Z → option string.
Variable isoformat : nat → string.
Implicit Types w : Mundo Image Pose.
Import Sqlite.

Local Abbreviation extrair := (extrair_keypoints process PoseLandmark_name).
Local Abbreviation tec := (transformar_e_carregar isoformat).
Local Abbreviation processar := (processar_video process PoseLandmark_name isoformat).
Local Abbreviation laco_v := (laco_videos process PoseLandmark_name isoformat).
Local Abbreviation principal := (main process PoseLandmark_name isoformat).

Lemma linhas_para_db_cons v fd dados ts :
  linhas_para_db v (fd :: dados) ts
  = (linha_de v ts (FrameData.frame fd) <$> FrameData.landmarks fd)
    ++ linhas_para_db v dados ts.
Proof. by rewrite !linhas_para_db_join. Qed.

Lemma linhas_para_db_frame v dados ts l :
  l ∈ linhas_para_db v dados ts → Linha.frame l ∈ FrameData.frame <$> dados.
Proof.
  intros (n & Hn)%list_elem_of_lookup.
  apply linhas_para_db_lookup in Hn as (i & fd & j & lm & Hi & _ & _ & ->).
  simpl. apply list_elem_of_fmap. exists fd. split; [done|].
  by apply list_elem_of_lookup_2 in Hi.
Qed.

(** Rows built from a capture without repeated frame indices or landmark
    ids have pairwise distinct keys. *)
Lemma sem_repeticao_chaves v dados ts :
  sem_repeticao dados → NoDup (chaves (linhas_para_db v dados ts)).
Proof.
  intros [Hf Hl]. induction dados as [|fd dados IH]; [apply NoDup_nil_2|].
  rewrite linhas_para_db_cons, chaves_app.
  apply NoDup_cons in Hf as [Hfd Hf].
  apply NoDup_app. split_and!.
  - unfold chaves. rewrite <- list_fmap_compose.
    assert (NoDup (LandmarkData.id <$> FrameData.landmarks fd)) as Hid
      by (apply Hl; left).
    revert Hid. generalize (FrameData.landmarks fd). intros lms.
    induction lms as [|lm lms IHl]; [intros _; apply NoDup_nil_2|].
    csimpl. intros [Hlm Hlms]%NoDup_cons. apply NoDup_cons. split; [|by apply IHl].
    intros (lm' & E & Hin)%list_elem_of_fmap. apply Hlm.
    apply list_elem_of_fmap. exists lm'. split; [|done].
    unfold Linha.chave in E. simpl in E. congruence.
  - intros k (l1 & -> & Hl1)%list_elem_of_fmap (l2 & E & Hl2)%list_elem_of_fmap.
    apply list_elem_of_fmap in Hl1 as (lm & -> & _).
    apply linhas_para_db_frame in Hl2. apply Hfd.
    unfold Linha.chave in E. simpl in E.
    replace (FrameData.frame fd) with (Linha.frame l2) by congruence. done.
  - apply IH; [done|]. intros fd' Hfd'. apply Hl. by right.
Qed.

Lemma StronglySorted_lt_NoDup (l : list Z) : StronglySorted Z.lt l → NoDup l.
Proof.
  induction 1 as [|x l _ IH Hx]; [apply NoDup_nil_2|].
  apply NoDup_cons. split; [|done]. intros Hin.
  rewrite Forall_forall in Hx. specialize (Hx x Hin). lia.
Qed.

Lemma enumerate_landmarks_ids ls lds :
  enumerate_landmarks PoseLandmark_name 0 ls [] = Ok lds →
  NoDup (LandmarkData.id <$> lds).
Proof.
  intros H. apply enumerate_landmarks_Ok in H as (novos & -> & Hlen & Hj).
  simpl. apply NoDup_alt. intros i j x Hi Hj'.
  apply list_lookup_fmap_Some in Hi as (a & -> & Ha).
  apply list_lookup_fmap_Some in Hj' as (b & E & Hb).
  destruct (lookup_lt_is_Some_2 ls i) as [lmi Hlmi];
    [rewrite <- Hlen; by eapply lookup_lt_Some|].
  destruct (lookup_lt_is_Some_2 ls j) as [lmj Hlmj];
    [rewrite <- Hlen; by eapply lookup_lt_Some|].
  destruct (Hj i lmi Hlmi) as (ni & _ & Hni).
  destruct (Hj j lmj Hlmj) as (nj & _ & Hnj).
  rewrite Ha in Hni. rewrite Hb in Hnj. simplify_eq/=. lia.
Qed.

(** What a capture writes never repeats a frame index, nor a landmark id
    within a frame, so the rows made of it have pairwise distinct keys. *)
Lemma captura_sem_repeticao w video_path out w' v jp :
  extrair video_path out w = (w', Ok (RetTupla (Some v) (Some jp))) →
  ∃ dados, arquivos w' !! jp = Some (ArqJson dados) ∧ sem_repeticao dados.
Proof.
  intros H.
  apply extrair_keypoints_par in H
    as (frames & w3 & dados & Hv & Hl & _ & _ & _ & Ha & _).
  exists dados. split; [by rewrite Ha, lookup_insert_eq|].
  apply laco_frames_inv in Hl as (_ & _ & _ & _ & novos & -> & Hs & Hin & _).
  simpl. split; [by apply StronglySorted_lt_NoDup|].
  intros fd Hfd. destruct (Hin fd Hfd) as (i & ls & _ & _ & He).
  by apply enumerate_landmarks_ids in He.
Qed.

Lemma os_path_join_nao_vazio a b : b ≠ "" → os_path_join a b ≠ "".
Proof.
  intros Hb. unfold os_path_join. destruct (startswith_barra b); [done|].
  destruct b as [|c b]; [done|].
  destruct (_ || _); destruct a; done.
Qed.

Lemma chaves_linhas_para_db_join v dados ts :
  chaves (linhas_para_db v dados ts)
  = mjoin ((λ fd, (λ lm, (v, FrameData.frame fd, LandmarkData.id lm))
                    <$> FrameData.landmarks fd) <$> dados).
Proof.
  rewrite linhas_para_db_join. unfold chaves.
  induction dados as [|fd dados IH]; csimpl; [done|].
  rewrite fmap_app, IH. f_equal.
  rewrite <- list_fmap_compose. by apply list_fmap_ext.
Qed.

(** The first processing of a video: when its capture succeeds and the
    table holds no row under its name, [main]'s step for it ends normally
    and the table keeps its rows and gains, after them, one row for every
    landmark of every record of the artifact, in the artifact's order, under
    the key (video name, frame index, landmark id); no key comes twice, and
    the count logged is the number of rows gained.  (Of the other columns
    nothing is said here.) *)
Theorem primeira_carga_insere_cada_chave w video_path w1 v jp t :
  extrair video_path KEYPOINTS_OUTPUT_DIR w
    = (w1, Ok (RetTupla (Some v) (Some jp))) →
  v ≠ "" →
  banco_em w DB_FILE = Banco (Some t) →
  (∀ l, l ∈ t → Linha.video_nome l ≠ v) →
  ∃ dados novas,
    arquivos w1 !! jp = Some (ArqJson dados)
    ∧ (processar video_path w).2 = Ok tt
    ∧ banco_em (processar video_path w).1 DB_FILE = Banco (Some (t ++ novas))
    ∧ chaves novas
      = mjoin ((λ fd, (λ lm, (v, FrameData.frame fd, LandmarkData.id lm))
                        <$> FrameData.landmarks fd) <$> dados)
    ∧ NoDup (chaves novas)
    ∧ length novas = sum_list_with (λ fd, length (FrameData.landmarks fd)) dados
    ∧ (novas ≠ [] →
       last (log (processar video_path w).1)
       = Some (INFO, Sucesso (length novas))).
Proof.
  intros He Hv Ht Hnew.
  destruct (captura_sem_repeticao _ _ _ _ _ _ He) as (dados & Ha & Hsr).
  pose proof (extrair_keypoints_par _ _ _ _ _ _ _ _ He)
    as (_ & _ & _ & _ & _ & _ & _ & Hjp & _ & Hb & Hr & _).
  exists dados, (linhas_para_db v dados (isoformat (relogio w))).
  split; [done|].
  assert (jp ≠ "") as Hjpne.
  { rewrite Hjp. apply os_path_join_nao_vazio.
    by destruct (os_path_basename video_path). }
  assert (banco_em w1 DB_FILE = Banco (Some t)) as Ht1
    by (unfold banco_em; by rewrite Hb).
  unfold processar_video, bind. rewrite He.
  assert (verdadeiro (Some v) = true) as -> by (by destruct v).
  rewrite (transformar_e_carregar_lido isoformat w1 v jp DB_FILE dados Hjpne Ha).
  cbn zeta. rewrite Hr.
  pose proof (sem_repeticao_chaves v dados (isoformat (relogio w)) Hsr) as Hnd.
  pose proof (linhas_para_db_length v dados (isoformat (relogio w))) as Hlen.
  pose proof (linhas_para_db_video_nome v dados (isoformat (relogio w))) as Hvn.
  pose proof (chaves_linhas_para_db_join v dados (isoformat (relogio w))) as Hch.
  destruct (linhas_para_db v dados (isoformat (relogio w))) as [|l0 ls] eqn:E.
  - unfold logging. cbn [fst snd]. split; [done|]. rewrite app_nil_r.
    split; [exact Ht1|]. done.
  - set (w0 := com_relogio _ _).
    assert (banco_em w0 DB_FILE = Banco (Some t)) as Ht0 by exact Ht1.
    rewrite (carregar_com_tabela w0 DB_FILE (l0 :: ls) t Ht0).
    rewrite (executemany_todas_novas (l0 :: ls) t 0 Hnd).
    + cbn [fst snd]. split; [done|]. split; [apply banco_em_insert|].
      split; [done|]. split; [done|]. split; [done|].
      intros _. simpl. by rewrite last_snoc.
    + intros l Hl (l' & E' & Hl')%list_elem_of_fmap.
      apply (Hnew l' Hl'). rewrite <- (Hvn l Hl).
      unfold Linha.chave in E'. congruence.
Qed.

(** *** The table only ever changes by INSERT OR IGNORE *)

Lemma por_cargas_igual db w w' :
  linhas_em w' db = linhas_em w db → por_cargas db w w'.
Proof. intros H. by exists []. Qed.

Lemma por_cargas_trans db w w1 w2 :
  por_cargas db w w1 → por_cargas db w1 w2 → por_cargas db w w2.
Proof.
  intros [l1 H1] [l2 H2]. exists (l1 ++ l2). by rewrite fold_left_app, <- H1.
Qed.

Lemma carregar_por_cargas db linhas w :
  por_cargas db w (carregar db linhas w).1.
Proof.
  destruct (banco_em w db) as [|[t|]] eqn:Hb.
  - apply por_cargas_igual. unfold carregar, sqlite3_connect. by rewrite Hb.
  - rewrite (carregar_com_tabela w db linhas t Hb). cbn [fst]. exists [linhas].
    unfold linhas_em. rewrite banco_em_insert, Hb. done.
  - apply por_cargas_igual. unfold carregar, sqlite3_connect. by rewrite Hb.
Qed.

Lemma transformar_e_carregar_por_cargas v json_path db w :
  por_cargas db w (tec v json_path db w).1.
Proof.
  destruct json_path as [[|c caminho]|]; [by apply por_cargas_igual| |
                                          by apply por_cargas_igual].
  destruct (arquivos w !! String c caminho) as [[|dados]|] eqn:Ha.
  - apply por_cargas_igual.
    unfold transformar_e_carregar, bind, logging, json_load. simpl.
    by rewrite Ha.
  - rewrite (transformar_e_carregar_lido isoformat w v _ db dados) by done.
    cbn zeta. destruct (linhas_para_db v dados (isoformat (relogio w))) as [|l0 ls].
    + by apply por_cargas_igual.
    + set (w0 := com_relogio _ _).
      apply (por_cargas_trans db w w0); [by apply por_cargas_igual|].
      apply carregar_por_cargas.
  - apply por_cargas_igual.
    unfold transformar_e_carregar, bind, logging, json_load. simpl.
    by rewrite Ha.
Qed.

Lemma processar_video_por_cargas video_path w :
  por_cargas DB_FILE w (processar video_path w).1.
Proof.
  unfold processar_video, bind.
  destruct (extrair video_path KEYPOINTS_OUTPUT_DIR w) as [w1 r1] eqn:He.
  apply extrair_keypoints_efeitos in He as (_ & _ & Hb & _).
  assert (por_cargas DB_FILE w w1) as H1
    by (apply por_cargas_igual; unfold linhas_em, banco_em; by rewrite Hb).
  destruct r1 as [[|[nome|] jp]|e]; try exact H1.
  destruct (verdadeiro (Some nome)); [|exact H1].
  apply (por_cargas_trans DB_FILE w w1); [done|].
  apply transformar_e_carregar_por_cargas.
Qed.

Lemma laco_videos_por_cargas vs : ∀ w,
  por_cargas DB_FILE w (laco_v vs w).1.
Proof.
  induction vs as [|video_path vs IH]; intros w; [by apply por_cargas_igual|].
  rewrite laco_videos_passo.
  pose proof (processar_video_por_cargas video_path w) as Hp.
  destruct (processar video_path w) as [w1 [[]|e]]; simpl in Hp.
  - by apply (por_cargas_trans DB_FILE w w1).
  - apply (por_cargas_trans DB_FILE w w1); [done|].
    apply (por_cargas_trans DB_FILE w1
             (com_log (log w1 ++ [(ERROR, Falha video_path e)]) w1));
      [by apply por_cargas_igual|apply IH].
Qed.

Lemma main_por_cargas w : por_cargas DB_FILE w (principal w).1.
Proof.
  destruct (banco_em w DB_FILE) as [|t] eqn:Hb.
  - pose proof (main_efeitos process PoseLandmark_name isoformat w) as H.
    rewrite Hb in H. destruct H as (_ & _ & _ & _ & _ & _ & novas & Hn & Hl).
    apply por_cargas_igual. rewrite Hn.
    destruct novas as [|l novas]; [by rewrite app_nil_r|].
    destruct (Hl l) as (x & Hx & _); [left|]. by apply elem_of_nil in Hx.
  - assert (banco_em (com_log (log w ++ [(INFO, Iniciando)]) w) DB_FILE = Banco t)
      as Hb0 by exact Hb.
    destruct (setup_database_efeitos _ t Hb0)
      as (w1 & Hs & (_ & _ & _ & _ & _ & novas & Hn & Hl) & _).
    assert (por_cargas DB_FILE w w1) as H1.
    { apply por_cargas_igual. rewrite Hn.
      destruct novas as [|l novas]; [by rewrite app_nil_r|].
      destruct (Hl l) as (x & Hx & _); [left|]. by apply elem_of_nil in Hx. }
    unfold main, bind, glob_videos. unfold logging at 1. cbn beta iota.
    rewrite Hs. cbn beta iota.
    destruct (glob_mp4 VIDEO_INPUT_DIR (entradas w1)) as [|v vs].
    + exact H1.
    + unfold logging at 1. cbn beta iota. set (w2 := com_log _ w1).
      pose proof (laco_videos_por_cargas (v :: vs) w2) as Hl2.
      destruct (laco_v (v :: vs) w2) as [w3 [[]|e]]; simpl in Hl2.
      * unfold logging. cbn [fst].
        apply (por_cargas_trans DB_FILE w w2); [exact H1|].
        exact Hl2.
      * cbn [fst]. apply (por_cargas_trans DB_FILE w w2); [exact H1|exact Hl2].
Qed.

(** A whole run changes the table of DB_FILE only through batches of
    INSERT OR IGNORE, whatever happens to the videos: the rows that were
    there stay, in place and as they were, the row found under a key is
    still found under it, and a table without duplicate keys is still
    without them. *)
Theorem main_so_acrescenta_linhas w :
  let antes := linhas_em w DB_FILE in
  let depois := linhas_em (principal w).1 DB_FILE in
  (∃ novas, depois = antes ++ novas)
  ∧ (∀ k r, busca k antes = Some r → busca k depois = Some r)
  ∧ (NoDup (chaves antes) → NoDup (chaves depois)).
Proof.
  intros antes depois. subst antes depois.
  destruct (main_por_cargas w) as [lotes ->].
  generalize (linhas_em w DB_FILE). intros t.
  revert t. induction lotes as [|lote lotes IH]; intros t; simpl.
  - split_and!; [exists []; by rewrite app_nil_r|done|done].
  - destruct (IH (executemany lote t 0).1) as ((novas & Hn) & Hb & Hnd).
    destruct (executemany_prefixo lote t 0) as (n1 & Hp & _).
    split_and!.
    + exists (n1 ++ novas). by rewrite Hn, Hp, app_assoc.
    + intros k r Hk. apply Hb. by apply busca_executemany.
    + intros H. apply Hnd. by apply executemany_NoDup.
Qed.

(** A capture outlives a database that cannot be opened.  When the capture
    of a video succeeds and [sqlite3.connect] fails on DB_FILE, the artifact
    is on disk under the video's name and stays there, and no database
    changes.  If the artifact yields rows, the step ends in the
    [UnboundLocalError] of the [finally] clause, which reads [conn] before
    it was ever assigned, with the SQLite error logged; [main] records the
    failure for this video and goes on with the next.  If it yields none,
    the database is never opened and the step ends normally. *)
Theorem captura_sobrevive_a_falha_do_banco w video_path resto w1 v jp :
  extrair video_path KEYPOINTS_OUTPUT_DIR w
    = (w1, Ok (RetTupla (Some v) (Some jp))) →
  v ≠ "" →
  banco_em w DB_FILE = Inacessivel →
  ∃ dados,
    jp = caminho_artefato video_path
    ∧ arquivos w1 !! jp = Some (ArqJson dados)
    ∧ arquivos (processar video_path w).1 = arquivos w1
    ∧ bancos (processar video_path w).1 = bancos w
    ∧ match linhas_para_db v dados (isoformat (relogio w)) with
      | [] => (processar video_path w).2 = Ok tt
      | _ :: _ =>
          (processar video_path w).2 = Raise UnboundLocalError
          ∧ log (processar video_path w).1
            = log w1 ++ [(INFO, Processando v);
                         (ERROR, ErroSqlite OperationalError)]
          ∧ laco_v (video_path :: resto) w
            = laco_v resto
                (com_log (log (processar video_path w).1
                          ++ [(ERROR, Falha video_path UnboundLocalError)])
                   (processar video_path w).1)
      end.
Proof.
  intros He Hv Hbd.
  pose proof (extrair_keypoints_par _ _ _ _ _ _ _ _ He)
    as (_ & _ & dados & _ & _ & _ & _ & Hjp & Ha & Hb & Hr & _).
  exists dados.
  assert (arquivos w1 !! jp = Some (ArqJson dados)) as Hl
    by (by rewrite Ha, lookup_insert_eq).
  assert (jp ≠ "") as Hjpne.
  { rewrite Hjp. apply os_path_join_nao_vazio.
    by destruct (os_path_basename video_path). }
  assert (banco_em w1 DB_FILE = Inacessivel) as Hbd1
    by (unfold banco_em in *; by rewrite Hb).
  split; [exact Hjp|]. split; [exact Hl|].
  rewrite laco_videos_passo.
  unfold processar_video, bind. rewrite He.
  assert (verdadeiro (Some v) = true) as -> by (by destruct v).
  rewrite (transformar_e_carregar_lido isoformat w1 v jp DB_FILE dados Hjpne Hl).
  cbn zeta. rewrite Hr.
  destruct (linhas_para_db v dados (isoformat (relogio w))) as [|l0 ls].
  - unfold logging. cbn [fst snd]. simpl. by rewrite Hb.
  - unfold carregar, sqlite3_connect.
    change (banco_em (com_relogio _ (com_log _ w1)) DB_FILE)
      with (banco_em w1 DB_FILE).
    rewrite Hbd1. simpl. rewrite Hb, <- app_assoc. done.
Qed.

(** A run that finds no video does nothing but set the database up: it
    makes no call to OpenCV or to the detector, writes no file, reads no
    clock, ends normally on the warning, and leaves the table with the rows
    it had. *)
Theorem sem_videos_so_prepara_o_banco w t :
  banco_em w DB_FILE = Banco t →
  glob_mp4 VIDEO_INPUT_DIR (entradas w) = [] →
  (principal w).2 = Ok tt
  ∧ chamadas (principal w).1 = chamadas w
  ∧ arquivos (principal w).1 = arquivos w
  ∧ pose (principal w).1 = pose w ∧ relogio (principal w).1 = relogio w
  ∧ banco_em (principal w).1 DB_FILE = Banco (Some (linhas_em w DB_FILE))
  ∧ log (principal w).1
    = log w ++ [(INFO, Iniciando); (INFO, ConfigurandoBanco DB_FILE);
                (INFO, BancoPronto); (WARNING, NenhumVideo VIDEO_INPUT_DIR)].
Proof.
  intros Hb Hg.
  unfold main, setup_database. rewrite os_makedirs_dirname_DB_FILE.
  unfold bind, ret, logging, sqlite3_connect, glob_videos.
  change (banco_em (com_log _ (com_log _ w)) DB_FILE) with (banco_em w DB_FILE).
  rewrite Hb. cbn beta iota.
  change (entradas (com_log _ (com_bancos _ (com_log _ (com_log _ w)))))
    with (entradas w).
  rewrite Hg. cbn [fst snd]. split_and!; try done.
  - unfold banco_em, linhas_em. simpl. rewrite lookup_insert_eq. simpl.
    fold (banco_em w DB_FILE). rewrite Hb. by destruct t.
  - simpl. by rewrite <- !app_assoc.
Qed.

End EndToEnd.

(** ** The further properties on concrete runs *)

Section MoreInstances.
Import Sqlite.

Local Abbreviation extrair_ex :=
  (extrair_keypoints Exemplo.process Exemplo.PoseLandmark_name).
Local Abbreviation tec_ex := (transformar_e_carregar Exemplo.isoformat).
Local Abbreviation processar_ex :=
  (processar_video Exemplo.process Exemplo.PoseLandmark_name Exemplo.isoformat).

Lemma artefato_guarda_o_detectado_witness :
  extrair_ex Exemplo.video_S KEYPOINTS_OUTPUT_DIR Exemplo.mundo_pronto
  = (Exemplo.mundo_capturado,
     Ok (RetTupla (Some "S.mp4") (Some Exemplo.artefato_S)))
  ∧ ∃ frames dados,
      videos Exemplo.mundo_pronto !! Exemplo.video_S = Some frames
      ∧ arquivos Exemplo.mundo_capturado !! Exemplo.artefato_S
        = Some (ArqJson dados).
Proof.
  assert (extrair_ex Exemplo.video_S KEYPOINTS_OUTPUT_DIR Exemplo.mundo_pronto
          = (Exemplo.mundo_capturado,
             Ok (RetTupla (Some "S.mp4") (Some Exemplo.artefato_S)))) as H
    by (vm_compute; reflexivity).
  split; [exact H|].
  destruct (artefato_guarda_o_detectado Exemplo.process Exemplo.PoseLandmark_name
              _ _ _ _ _ _ H) as (frames & dados & Hv & Ha & _).
  exists frames, dados. split; [exact Hv|exact Ha].
Defined.

Lemma captura_le_cada_frame_uma_vez_witness :
  videos Exemplo.mundo_pronto !! Exemplo.video_S
    = Some [Exemplo.com_pose; Exemplo.sem_pose; Exemplo.com_pose]
  ∧ extrair_ex Exemplo.video_S KEYPOINTS_OUTPUT_DIR Exemplo.mundo_pronto
    = (Exemplo.mundo_capturado,
       Ok (RetTupla (Some "S.mp4") (Some Exemplo.artefato_S)))
  ∧ chamadas Exemplo.mundo_capturado
    = chamadas Exemplo.mundo_pronto
      ++ CVideoCapture Exemplo.video_S
         :: leituras Exemplo.video_S 3 ++ [CRelease Exemplo.video_S]
  ∧ pose Exemplo.mundo_capturado = 3%nat.
Proof.
  assert (videos Exemplo.mundo_pronto !! Exemplo.video_S
          = Some [Exemplo.com_pose; Exemplo.sem_pose; Exemplo.com_pose]) as H1
    by (vm_compute; reflexivity).
  assert (extrair_ex Exemplo.video_S KEYPOINTS_OUTPUT_DIR Exemplo.mundo_pronto
          = (Exemplo.mundo_capturado,
             Ok (RetTupla (Some "S.mp4") (Some Exemplo.artefato_S)))) as H2
    by (vm_compute; reflexivity).
  split; [exact H1|]. split; [exact H2|].
  exact (captura_le_cada_frame_uma_vez Exemplo.process Exemplo.PoseLandmark_name
           _ _ _ _ _ _ H1 H2).
Defined.

Lemma deteccao_grande_demais_levanta_ValueError_witness :
  videos Exemplo2.mundo_X !! Exemplo2.video_X
    = Some [Exemplo.com_pose; Some (replicate 34 Exemplo.nariz)]
  ∧ Exemplo.PoseLandmark_name 33 = None
  ∧ ∃ w', extrair_ex Exemplo2.video_X KEYPOINTS_OUTPUT_DIR Exemplo2.mundo_X
          = (w', Raise ValueError)
          ∧ arquivos w' = arquivos Exemplo2.mundo_X.
Proof.
  assert (videos Exemplo2.mundo_X !! Exemplo2.video_X
          = Some [Exemplo.com_pose; Some (replicate 34 Exemplo.nariz)]) as H1
    by (vm_compute; reflexivity).
  assert (deteccoes Exemplo.process (pose Exemplo2.mundo_X)
            [Exemplo.com_pose; Some (replicate 34 Exemplo.nariz)] !! 1%nat
          = Some (Some (replicate 34 Exemplo.nariz))) as H2
    by (vm_compute; reflexivity).
  assert (0 ≤ 33 < Z.of_nat (length (replicate 34 Exemplo.nariz))) as H3
    by (rewrite length_replicate; lia).
  assert (Exemplo.PoseLandmark_name 33 = None) as H4 by (vm_compute; reflexivity).
  split; [exact H1|]. split; [exact H4|].
  destruct (deteccao_grande_demais_levanta_ValueError Exemplo.process
              Exemplo.PoseLandmark_name Exemplo2.mundo_X Exemplo2.video_X
              KEYPOINTS_OUTPUT_DIR _ 1%nat _ 33 H1 H2 H3 H4)
    as (w' & He & Ha & _).
  exists w'. split; [exact He|exact Ha].
Defined.

Lemma video_sem_pose_nao_deixa_rastro_witness :
  videos Exemplo.mundo_pronto !! Exemplo.video_C
    = Some [Exemplo.sem_pose; Exemplo.sem_pose]
  ∧ processar_ex Exemplo.video_C Exemplo.mundo_pronto
    = ((extrair_ex Exemplo.video_C KEYPOINTS_OUTPUT_DIR Exemplo.mundo_pronto).1,
       Ok tt).
Proof.
  assert (videos Exemplo.mundo_pronto !! Exemplo.video_C
          = Some [Exemplo.sem_pose; Exemplo.sem_pose]) as H1
    by (vm_compute; reflexivity).
  split; [exact H1|].
  refine (proj1 (proj2 (video_sem_pose_nao_deixa_rastro Exemplo.process
                          Exemplo.PoseLandmark_name Exemplo.isoformat
                          _ _ _ H1 _))).
  intros [|[|i]] o Hi; vm_compute in Hi; congruence.
Defined.

Lemma setup_database_conserva_as_linhas_witness :
  os_path_dirname "poses.db" = ""
  ∧ (setup_database "poses.db" Exemplo.mundo).2 = Raise FileNotFoundError
  ∧ bancos (setup_database "poses.db" Exemplo.mundo).1 = bancos Exemplo.mundo
  ∧ (setup_database DB_FILE Exemplo.mundo).2 = Ok tt
  ∧ banco_em (setup_database DB_FILE Exemplo.mundo).1 DB_FILE = Banco (Some []).
Proof.
  assert (os_path_dirname "poses.db" = "") as H1 by reflexivity.
  assert ((setup_database DB_FILE Exemplo.mundo).2 = Ok tt) as H2
    by (vm_compute; reflexivity).
  destruct (setup_database_conserva_as_linhas Exemplo.mundo "poses.db")
    as (_ & Hraise & Hvazio & _).
  destruct (setup_database_conserva_as_linhas Exemplo.mundo DB_FILE)
    as (Hok & _).
  destruct (Hok H2) as (_ & _ & Hb & _).
  split; [exact H1|]. split; [exact (Hvazio H1)|].
  split; [exact (proj1 (Hraise _ (Hvazio H1)))|].
  split; [exact H2|exact Hb].
Defined.

Lemma recarregar_nao_atualiza_witness :
  Exemplo.artefato_S ≠ ""
  ∧ arquivos Exemplo.mundo_capturado !! Exemplo.artefato_S
    = Some (ArqJson Exemplo.dados_S)
  ∧ banco_em Exemplo.mundo_capturado DB_FILE = Banco (Some [])
  ∧ let w1 := (tec_ex "S.mp4" (Some Exemplo.artefato_S) DB_FILE
                 Exemplo.mundo_capturado).1 in
    bancos (tec_ex "S.mp4" (Some Exemplo.artefato_S) DB_FILE w1).1 = bancos w1.
Proof.
  assert (Exemplo.artefato_S ≠ "") as H1 by discriminate.
  assert (arquivos Exemplo.mundo_capturado !! Exemplo.artefato_S
          = Some (ArqJson Exemplo.dados_S)) as H2 by (vm_compute; reflexivity).
  assert (banco_em Exemplo.mundo_capturado DB_FILE = Banco (Some [])) as H3
    by (vm_compute; reflexivity).
  split; [exact H1|]. split; [exact H2|]. split; [exact H3|].
  exact (proj1 (recarregar_nao_atualiza Exemplo.isoformat Exemplo.mundo_capturado
                  "S.mp4" Exemplo.artefato_S DB_FILE Exemplo.dados_S [] H1 H2 H3)).
Defined.

Lemma falha_do_banco_na_carga_witness :
  Exemplo.artefato_S ≠ ""
  ∧ arquivos Exemplo2.mundo_inacessivel !! Exemplo.artefato_S
    = Some (ArqJson Exemplo.dados_S)
  ∧ banco_em Exemplo2.mundo_inacessivel DB_FILE = Inacessivel
  ∧ bancos (tec_ex "S.mp4" (Some Exemplo.artefato_S) DB_FILE
              Exemplo2.mundo_inacessivel).1
    = bancos Exemplo2.mundo_inacessivel.
Proof.
  assert (Exemplo.artefato_S ≠ "") as H1 by discriminate.
  assert (arquivos Exemplo2.mundo_inacessivel !! Exemplo.artefato_S
          = Some (ArqJson Exemplo.dados_S)) as H2 by (vm_compute; reflexivity).
  assert (linhas_para_db "S.mp4" Exemplo.dados_S
            (Exemplo.isoformat (relogio Exemplo2.mundo_inacessivel)) ≠ []) as H3
    by (vm_compute; discriminate).
  assert (banco_em Exemplo2.mundo_inacessivel DB_FILE = Inacessivel) as H4
    by (vm_compute; reflexivity).
  split; [exact H1|]. split; [exact H2|]. split; [exact H4|].
  refine (proj1 (falha_do_banco_na_carga Exemplo.isoformat
                   Exemplo2.mundo_inacessivel "S.mp4" Exemplo.artefato_S DB_FILE
                   Exemplo.dados_S H1 H2 H3 _)).
  intros t. rewrite H4. discriminate.
Defined.

Lemma transformar_e_carregar_so_toca_o_banco_witness :
  Exemplo.artefato_S ≠ ""
  ∧ arquivos Exemplo2.mundo_truncado !! Exemplo.artefato_S = Some ArqVazio
  ∧ (tec_ex "S.mp4" (Some Exemplo.artefato_S) DB_FILE Exemplo2.mundo_truncado).2
    = Raise JSONDecodeError
  ∧ bancos (tec_ex "S.mp4" (Some Exemplo.artefato_S) DB_FILE
              Exemplo2.mundo_truncado).1
    = bancos Exemplo2.mundo_truncado.
Proof.
  assert (Exemplo.artefato_S ≠ "") as H0 by discriminate.
  assert (arquivos Exemplo2.mundo_truncado !! Exemplo.artefato_S = Some ArqVazio)
    as H1 by (vm_compute; reflexivity).
  split; [exact H0|]. split; [exact H1|].
  destruct (transformar_e_carregar_so_toca_o_banco Exemplo.isoformat
              Exemplo2.mundo_truncado "S.mp4" (Some Exemplo.artefato_S) DB_FILE)
    as (_ & _ & _ & H).
  destruct (H Exemplo.artefato_S eq_refl H0 H1) as (Hr & Hb & _).
  split; [exact Hr|exact Hb].
Defined.

Lemma primeira_carga_insere_cada_chave_witness :
  extrair_ex Exemplo.video_S KEYPOINTS_OUTPUT_DIR Exemplo.mundo_pronto
  = (Exemplo.mundo_capturado,
     Ok (RetTupla (Some "S.mp4") (Some Exemplo.artefato_S)))
  ∧ banco_em Exemplo.mundo_pronto DB_FILE = Banco (Some [])
  ∧ ∃ dados novas,
      arquivos Exemplo.mundo_capturado !! Exemplo.artefato_S = Some (ArqJson dados)
      ∧ (processar_ex Exemplo.video_S Exemplo.mundo_pronto).2 = Ok tt
      ∧ banco_em (processar_ex Exemplo.video_S Exemplo.mundo_pronto).1 DB_FILE
        = Banco (Some ([] ++ novas))
      ∧ NoDup (chaves novas).
Proof.
  assert (extrair_ex Exemplo.video_S KEYPOINTS_OUTPUT_DIR Exemplo.mundo_pronto
          = (Exemplo.mundo_capturado,
             Ok (RetTupla (Some "S.mp4") (Some Exemplo.artefato_S)))) as H1
    by (vm_compute; reflexivity).
  assert ("S.mp4" ≠ "") as H2 by discriminate.
  assert (banco_em Exemplo.mundo_pronto DB_FILE = Banco (Some [])) as H3
    by (vm_compute; reflexivity).
  split; [exact H1|]. split; [exact H3|].
  destruct (primeira_carga_insere_cada_chave Exemplo.process
              Exemplo.PoseLandmark_name
              Exemplo.isoformat Exemplo.mundo_pronto Exemplo.video_S
              Exemplo.mundo_capturado "S.mp4" Exemplo.artefato_S [] H1 H2 H3)
    as (dados & novas & Ha & Hr & Hb & _ & Hnd & _).
  { intros l Hl. by apply elem_of_nil in Hl. }
  exists dados, novas. split; [exact Ha|]. split; [exact Hr|].
  split; [exact Hb|exact Hnd].
Defined.

Lemma captura_sobrevive_a_falha_do_banco_witness :
  extrair_ex Exemplo.video_S KEYPOINTS_OUTPUT_DIR Exemplo2.mundo_banco_fechado
  = ((extrair_ex Exemplo.video_S KEYPOINTS_OUTPUT_DIR
        Exemplo2.mundo_banco_fechado).1,
     Ok (RetTupla (Some "S.mp4") (Some Exemplo.artefato_S)))
  ∧ banco_em Exemplo2.mundo_banco_fechado DB_FILE = Inacessivel
  ∧ ∃ dados,
      arquivos (extrair_ex Exemplo.video_S KEYPOINTS_OUTPUT_DIR
                  Exemplo2.mundo_banco_fechado).1 !! Exemplo.artefato_S
      = Some (ArqJson dados)
      ∧ bancos (processar_ex Exemplo.video_S Exemplo2.mundo_banco_fechado).1
        = bancos Exemplo2.mundo_banco_fechado.
Proof.
  assert (extrair_ex Exemplo.video_S KEYPOINTS_OUTPUT_DIR
            Exemplo2.mundo_banco_fechado
          = ((extrair_ex Exemplo.video_S KEYPOINTS_OUTPUT_DIR
                Exemplo2.mundo_banco_fechado).1,
             Ok (RetTupla (Some "S.mp4") (Some Exemplo.artefato_S)))) as H1
    by (vm_compute; reflexivity).
  assert ("S.mp4" ≠ "") as H2 by discriminate.
  assert (banco_em Exemplo2.mundo_banco_fechado DB_FILE = Inacessivel) as H3
    by (vm_compute; reflexivity).
  split; [exact H1|]. split; [exact H3|].
  destruct (captura_sobrevive_a_falha_do_banco Exemplo.process
              Exemplo.PoseLandmark_name Exemplo.isoformat
              Exemplo2.mundo_banco_fechado Exemplo.video_S [] _
              "S.mp4" Exemplo.artefato_S H1 H2 H3)
    as (dados & _ & Ha & _ & Hb & _).
  exists dados. split; [exact Ha|exact Hb].
Defined.

Lemma sem_videos_so_prepara_o_banco_witness :
  banco_em Exemplo2.mundo_truncado DB_FILE = Banco (Some [])
  ∧ glob_mp4 VIDEO_INPUT_DIR (entradas Exemplo2.mundo_truncado) = []
  ∧ (main Exemplo.process Exemplo.PoseLandmark_name Exemplo.isoformat
       Exemplo2.mundo_truncado).2 = Ok tt.
Proof.
  assert (banco_em Exemplo2.mundo_truncado DB_FILE = Banco (Some [])) as H1
    by (vm_compute; reflexivity).
  assert (glob_mp4 VIDEO_INPUT_DIR (entradas Exemplo2.mundo_truncado) = []) as H2
    by reflexivity.
  split; [exact H1|]. split; [exact H2|].
  exact (proj1 (sem_videos_so_prepara_o_banco Exemplo.process
                  Exemplo.PoseLandmark_name Exemplo.isoformat
                  Exemplo2.mundo_truncado (Some []) H1 H2)).
Defined.

End MoreInstances.
